(** * JXA execution utilities (src/utils/jxa.ts): a shallow embedding

    The module under study escapes text for a double-quoted JavaScript
    literal, shells out to [osascript -l JavaScript] through Node's
    [execSync], classifies the outcome, and wraps a code fragment into a
    script for Notes.app.

    Modelling choices.
    - A JavaScript string is its sequence of UTF-16 code units, each a [Z].
      Nothing below needs the units to be in range, so the theorems hold for
      every list and in particular for every string.
    - [execSync] is the only effect.  A computation is a tree [Prog] whose
      nodes are calls of the facility and whose leaves are completions: a
      normal value or a thrown JavaScript value.  [run] interprets a tree
      against a facility and records every call that was made.
    - [timeoutMs] is an integer number of milliseconds (the option is
      documented as a positive integer); the division by 1000 and
      [Math.round] are exact rational arithmetic.  That is what the double
      arithmetic of JavaScript gives for every safe integer (magnitude
      below 2^53): the quotient is then below 2^44, where two doubles are
      at most 2^-9 apart, so the rounded quotient is less than 1/1000 away
      from the exact one and cannot reach or cross a half that the exact
      one does not reach.  Beyond the safe integers the two differ, so
      every statement about the digits of the timeout message assumes a
      safe integer.
    - An [Error] object carries a string [message], as lib.es5 declares it,
      and the two optional fields [killed] and [signal] that the source
      reads through its cast. *)

From Stdlib Require Import ZArith List String Ascii Bool Lia.
From Stdlib Require Import QArith Qround DecimalString.
Import ListNotations.
Open Scope Z_scope.

(* ===================================================================== *)
(** ** JavaScript strings *)

Definition code_unit := Z.
Definition jsstring := list code_unit.

(** An ASCII literal as a JavaScript string. *)
Definition js (s : string) : jsstring :=
  map (fun a => Z.of_nat (nat_of_ascii a)) (list_ascii_of_string s).

Definition BACKSLASH : code_unit := 92.
Definition DQUOTE : code_unit := 34.
Definition SQUOTE : code_unit := 39.
Definition LF : code_unit := 10.
Definition CR : code_unit := 13.
Definition TAB : code_unit := 9.

(** [!str] is true exactly for the empty string. *)
Definition truthy (s : jsstring) : bool :=
  match s with
  | [] => false
  | _ :: _ => true
  end.

(** [a ?? b] on an optional field. *)
Definition nullish {A : Type} (a : option A) (b : A) : A :=
  match a with
  | Some x => x
  | None => b
  end.

(** [s.replace(/c/g, r)] for a pattern that is the single code unit [c] and
    a replacement [r] without [$]: one scan from left to right, every match
    replaced, the replacement never scanned again. *)
Fixpoint replace_global (c : code_unit) (r : jsstring) (s : jsstring) : jsstring :=
  match s with
  | [] => []
  | x :: s' =>
      if x =? c then r ++ replace_global c r s' else x :: replace_global c r s'
  end.

(** ECMAScript LineTerminator: LF, CR, LS, PS. *)
Definition is_line_terminator (c : code_unit) : bool :=
  (c =? 0x0A) || (c =? 0x0D) || (c =? 0x2028) || (c =? 0x2029).

(** What [String.prototype.trim] strips: WhiteSpace and LineTerminator. *)
Definition is_white_space (c : code_unit) : bool :=
  (c =? 0x09) || (c =? 0x0B) || (c =? 0x0C) || (c =? 0x20) || (c =? 0xA0)
  || (c =? 0x1680) || ((0x2000 <=? c) && (c <=? 0x200A))
  || (c =? 0x202F) || (c =? 0x205F) || (c =? 0x3000) || (c =? 0xFEFF)
  || is_line_terminator c.

Fixpoint trimStart (s : jsstring) : jsstring :=
  match s with
  | [] => []
  | c :: s' => if is_white_space c then trimStart s' else s
  end.

Definition trimEnd (s : jsstring) : jsstring := rev (trimStart (rev s)).

Definition trim (s : jsstring) : jsstring := trimEnd (trimStart s).

(** [Math.round] on the exact value of its argument: the nearest integer,
    ties towards plus infinity.  The executor applies it to an exact
    quotient, which is the quotient of the doubles when the dividend is a
    safe integer. *)
Definition Math_round (q : Q) : Z := Qfloor (q + (1 # 2))%Q.

(** [String(n)] for an integer-valued number: its decimal digits (what
    JavaScript prints for every integer below 10^21 in magnitude). *)
Definition Number_toString (n : Z) : jsstring :=
  js (NilZero.string_of_int (Z.to_int n)).

(** [Number.isSafeInteger(n)] for an integer-valued number. *)
Definition Number_isSafeInteger (n : Z) : bool := Z.abs n <=? 2 ^ 53 - 1.

(** [s] with [p] removed from its front, when [s] starts with [p]. *)
Fixpoint strip_prefix (p s : jsstring) : option jsstring :=
  match p, s with
  | [], _ => Some s
  | _ :: _, [] => None
  | a :: p', b :: s' => if a =? b then strip_prefix p' s' else None
  end.

(** The longest prefix matched by a greedy [.*]: [.] is any code unit that
    is not a line terminator (no [s] flag). *)
Fixpoint dot_star (s : jsstring) : jsstring :=
  match s with
  | [] => []
  | c :: s' => if is_line_terminator c then [] else c :: dot_star s'
  end.

(** One attempt of [/Error: (.+)/] at the front of [s]; the value is the
    capture group.  Nothing follows the group in the pattern, so the greedy
    [.+] never gives anything back. *)
Definition match_here_Error_details (s : jsstring) : option jsstring :=
  match strip_prefix (js "Error: ") s with
  | Some rest =>
      match dot_star rest with
      | [] => None
      | cap => Some cap
      end
  | None => None
  end.

(** [msg.match(/Error: (.+)/)], reduced to [match[1]]: the pattern is not
    anchored, the attempts go through the start positions from left to
    right and the first success wins. *)
Fixpoint match_Error_details (s : jsstring) : option jsstring :=
  match match_here_Error_details s with
  | Some cap => Some cap
  | None =>
      match s with
      | [] => None
      | _ :: s' => match_Error_details s'
      end
  end.

(* ===================================================================== *)
(** ** JavaScript values that can be thrown *)

(** An instance of [Error], with the fields the source reads. *)
Record ErrorObject : Type := {
  message : jsstring;
  killed : option bool;
  signal : option jsstring
}.

Inductive js_value : Type :=
| JSUndefined
| JSNull
| JSBoolean (b : bool)
| JSNumber (n : Z)
| JSString (s : jsstring)
| JSObject (props : list (jsstring * jsstring))
| JSError (e : ErrorObject).

Definition jsstring_eqb (a b : jsstring) : bool :=
  if list_eq_dec Z.eq_dec a b then true else false.

(* ===================================================================== *)
(** ** Computations that call [execSync] *)

Inductive completion (A : Type) : Type :=
| Normal (a : A)
| Throw (v : js_value).
Arguments Normal {A} a.
Arguments Throw {A} v.

(** The options object handed to [execSync]. *)
Record ExecSyncOptions : Type := {
  encoding : jsstring;
  timeout : Z;
  stdio : list jsstring
}.

Inductive Prog (A : Type) : Type :=
| Done (c : completion A)
| Exec (command : jsstring) (opts : ExecSyncOptions)
       (k : completion jsstring -> Prog A).
Arguments Done {A} c.
Arguments Exec {A} command opts k.

Definition ret {A : Type} (a : A) : Prog A := Done (Normal a).

Definition throw {A : Type} (v : js_value) : Prog A := Done (Throw v).

Fixpoint bind {A B : Type} (p : Prog A) (f : A -> Prog B) : Prog B :=
  match p with
  | Done (Normal a) => f a
  | Done (Throw v) => Done (Throw v)
  | Exec c o k => Exec c o (fun r => bind (k r) f)
  end.

(** [try { body } catch (e) { handler e }] *)
Fixpoint try_catch {A : Type} (body : Prog A) (handler : js_value -> Prog A)
  : Prog A :=
  match body with
  | Done (Normal a) => Done (Normal a)
  | Done (Throw v) => handler v
  | Exec c o k => Exec c o (fun r => try_catch (k r) handler)
  end.

Definition execSync (command : jsstring) (opts : ExecSyncOptions)
  : Prog jsstring :=
  Exec command opts (fun r => Done r).

Notation "x <- p ;; q" := (bind p (fun x => q))
  (at level 61, p at next level, right associativity).

(** One recorded call of the facility. *)
Record call : Type := {
  call_command : jsstring;
  call_options : ExecSyncOptions
}.

(** A behaviour of the process facility: for the call it receives, the text
    it returns or the value it throws. *)
Definition facility := jsstring -> ExecSyncOptions -> completion jsstring.

Fixpoint run {A : Type} (f : facility) (p : Prog A) : completion A * list call :=
  match p with
  | Done c => (c, [])
  | Exec c o k =>
      let '(r, calls) := run f (k (f c o)) in
      (r, {| call_command := c; call_options := o |} :: calls)
  end.

(* ===================================================================== *)
(** ** The module *)

Record JXAResult : Type := {
  success : bool;
  output : jsstring;
  error : option jsstring
}.

Record JXAOptions : Type := {
  timeoutMs : option Z
}.

Definition DEFAULT_TIMEOUT_MS : Z := 30000.

Definition escapeForJXA (str : jsstring) : jsstring :=
  if negb (truthy str) then js ""
  else
    replace_global TAB (js "\t")
      (replace_global CR (js "\r")
         (replace_global LF (js "\n")
            (replace_global DQUOTE [BACKSLASH; DQUOTE]
               (replace_global BACKSLASH (js "\\") str)))).

Definition isTimeoutError (err : js_value) : bool :=
  match err with
  | JSError execError =>
      match killed execError with
      | Some true => true
      | _ => false
      end
      || match signal execError with
         | Some sg => jsstring_eqb sg (js "SIGTERM")
         | None => false
         end
  | _ => false
  end.

Definition executeJXA (script : jsstring) (options : option JXAOptions)
  : Prog JXAResult :=
  let options := nullish options {| timeoutMs := None |} in
  let timeoutMs := nullish (timeoutMs options) DEFAULT_TIMEOUT_MS in
  if negb (truthy script) || negb (truthy (trim script)) then
    ret {| success := false;
           output := js "";
           error := Some (js "Cannot execute empty JXA script") |}
  else
    let escapedScript := replace_global SQUOTE (js "'\''") (trim script) in
    let command :=
      js "osascript -l JavaScript -e '" ++ escapedScript ++ js "'" in
    try_catch
      (output <- execSync command
                   {| encoding := js "utf8";
                      timeout := timeoutMs;
                      stdio := [js "pipe"; js "pipe"; js "pipe"] |} ;;
       ret {| success := true; output := trim output; error := None |})
      (fun err =>
         let errorMessage :=
           if isTimeoutError err then
             let timeoutSecs :=
               Math_round (inject_Z timeoutMs / inject_Z 1000)%Q in
             js "Operation timed out after " ++ Number_toString timeoutSecs
               ++ js " seconds"
           else
             match err with
             | JSError e =>
                 match match_Error_details (message e) with
                 | Some details => details
                 | None => message e
                 end
             | _ => js "JXA execution failed with unknown error"
             end in
         ret {| success := false; output := js ""; error := Some errorMessage |}).

Definition buildNotesJXA (code : jsstring) : jsstring :=
  [LF] ++ js "    const Notes = Application(" ++ [DQUOTE] ++ js "Notes"
    ++ [DQUOTE] ++ js ");" ++ [LF]
    ++ js "    Notes.includeStandardAdditions = true;" ++ [LF]
    ++ js "    " ++ code ++ [LF]
    ++ js "  ".

(* ===================================================================== *)
(** ** Reference notions used in the statements *)

(** How a single code unit is to appear inside a double-quoted literal. *)
Definition escape_code_unit (c : code_unit) : jsstring :=
  if c =? BACKSLASH then js "\\"
  else if c =? DQUOTE then [BACKSLASH; DQUOTE]
  else if c =? LF then js "\n"
  else if c =? CR then js "\r"
  else if c =? TAB then js "\t"
  else [c].

(** The five code units the escaper rewrites. *)
Definition needs_escape (c : code_unit) : bool :=
  (c =? BACKSLASH) || (c =? DQUOTE) || (c =? LF) || (c =? CR) || (c =? TAB).

(** ECMAScript SingleEscapeCharacter: the unit that follows the backslash
    and the unit the escape stands for. *)
Definition single_escape (e : code_unit) : option code_unit :=
  if e =? 92 then Some BACKSLASH        (* backslash *)
  else if e =? 34 then Some DQUOTE      (* double quote *)
  else if e =? 39 then Some SQUOTE      (* single quote *)
  else if e =? 110 then Some LF         (* n *)
  else if e =? 114 then Some CR         (* r *)
  else if e =? 116 then Some TAB        (* t *)
  else if e =? 98 then Some 8           (* b: backspace *)
  else if e =? 102 then Some 12         (* f: form feed *)
  else if e =? 118 then Some 11         (* v: vertical tab *)
  else None.

(** A unit that may not stand for itself between the double quotes
    (ECMAScript 2019 and later: LS and PS are allowed there). *)
Definition forbidden_raw (c : code_unit) : bool :=
  (c =? DQUOTE) || (c =? BACKSLASH) || (c =? LF) || (c =? CR).

(** The string value of the body of a double-quoted literal, [None] when the
    body is not one.  Escapes outside SingleEscapeCharacter (hexadecimal,
    Unicode, octal, line continuation) are rejected: the escaper never
    produces them, and the stricter reader makes the round trip stronger. *)
Fixpoint eval_double_quoted (body : jsstring) : option jsstring :=
  match body with
  | [] => Some []
  | c :: rest =>
      if c =? BACKSLASH then
        match rest with
        | [] => None
        | e :: rest' =>
            match single_escape e with
            | Some v => option_map (cons v) (eval_double_quoted rest')
            | None => None
            end
        end
      else if forbidden_raw c then None
      else option_map (cons c) (eval_double_quoted rest)
  end.

(** [needle] occurs in [hay] as a contiguous block. *)
Definition contains (hay needle : jsstring) : Prop :=
  exists pre post, hay = pre ++ needle ++ post.

(** The script has nothing but white space in it (the empty script too). *)
Definition blank (script : jsstring) : bool := forallb is_white_space script.

(** The shape of a well-formed result. *)
Definition well_shaped (r : JXAResult) : Prop :=
  (success r = false -> output r = js "" /\ exists e, error r = Some e)
  /\ (success r = true -> error r = None)
  /\ ~ (output r <> js "" /\ error r <> None).

(** An occurrence in [msg] at which [/Error: (.+)/] can match: the text
    [Error: ] after [pre], then at least one unit that is not a line
    terminator. *)
Definition match_start (msg pre : jsstring) (c : code_unit) (tail : jsstring)
  : Prop :=
  msg = pre ++ js "Error: " ++ c :: tail /\ is_line_terminator c = false.

(** [details] is what the pattern captures in [msg]: it follows the first
    match start, has no line terminator, and runs up to the next line
    terminator or the end of the message. *)
Definition captured (msg details : jsstring) : Prop :=
  exists pre rest,
    msg = pre ++ js "Error: " ++ details ++ rest
    /\ details <> []
    /\ Forall (fun c => is_line_terminator c = false) details
    /\ match rest with
       | [] => True
       | c :: _ => is_line_terminator c = true
       end
    /\ forall pre' c tail,
         match_start msg pre' c tail -> (List.length pre <= List.length pre')%nat.

(** The statement that binds the Notes application handle. *)
Definition notes_binding : jsstring :=
  js "const Notes = Application(" ++ [DQUOTE] ++ js "Notes" ++ [DQUOTE]
    ++ js ");".

(** The statement that enables the standard additions. *)
Definition standard_additions_statement : jsstring :=
  js "Notes.includeStandardAdditions = true;".

(** A single quote inside a single-quoted shell word: close the word, an
    escaped quote, open the word again. *)
Definition shell_quote (s : jsstring) : jsstring :=
  flat_map (fun c => if c =? SQUOTE then [SQUOTE; BACKSLASH; SQUOTE; SQUOTE]
                     else [c]) s.

(** The command line for a script: the trimmed script as one single-quoted
    argument of [-e]. *)
Definition osascript_command (script : jsstring) : jsstring :=
  js "osascript -l JavaScript -e " ++ [SQUOTE] ++ shell_quote (trim script)
    ++ [SQUOTE].

(** The timeout in force: the option when it is given, 30000 otherwise. *)
Definition configured_timeout (options : option JXAOptions) : Z :=
  match options with
  | Some {| timeoutMs := Some t |} => t
  | _ => 30000
  end.

(** The options of the call made for [options]. *)
Definition exec_options (options : option JXAOptions) : ExecSyncOptions :=
  {| encoding := js "utf8";
     timeout := configured_timeout options;
     stdio := [js "pipe"; js "pipe"; js "pipe"] |}.

(** Milliseconds as whole seconds, to the nearest, halves upwards. *)
Definition whole_seconds (ms : Z) : Z := (ms + 500) / 1000.

Definition timeout_message (ms : Z) : jsstring :=
  js "Operation timed out after " ++ Number_toString (whole_seconds ms)
    ++ js " seconds".

Definition failure (msg : jsstring) : JXAResult :=
  {| success := false; output := js ""; error := Some msg |}.

(** What the catch block reports for a thrown value. *)
Definition reported_error (options : option JXAOptions) (err : js_value)
  : jsstring :=
  if isTimeoutError err then timeout_message (configured_timeout options)
  else
    match err with
    | JSError e =>
        match match_Error_details (message e) with
        | Some details => details
        | None => message e
        end
    | _ => js "JXA execution failed with unknown error"
    end.

(** Two thrown errors used as test inputs: a message that starts with the
    text Error: and goes on over a second line, and a message in the style
    of [execSync], where the interpreter's line comes after the line that
    names the failed command. *)
Definition two_line_error : ErrorObject :=
  {| message := js "Error: first line" ++ [LF] ++ js "second line";
     killed := None;
     signal := None |}.

Definition command_failed_error : ErrorObject :=
  {| message := js "Command failed: osascript" ++ [LF]
                  ++ js "execution error: Error: Cannot find note";
     killed := None;
     signal := None |}.

(* ===================================================================== *)
(** ** How a POSIX shell splits a command line into words *)

(** An unquoted space or tab ends a word. *)
Definition sh_blank (c : code_unit) : bool := (c =? 32) || (c =? 9).

(** The units with a meaning of their own when unquoted: the operators, the
    newline, the expansion and pattern characters, the double quote and the
    comment sign.  The reader below refuses every one of them. *)
Definition sh_special (c : code_unit) : bool :=
  existsb (Z.eqb c)
    [10; 33; 34; 35; 36; 38; 40; 41; 42; 59; 60; 61; 62; 63; 91; 93; 96; 123;
     124; 125; 126].

(** A unit that stands for itself outside quotes. *)
Definition sh_plain (c : code_unit) : bool :=
  negb (c =? SQUOTE) && negb (c =? BACKSLASH) && negb (sh_blank c)
  && negb (sh_special c).

(** The word being read, with one more unit. *)
Definition sh_push (cur : option jsstring) (c : code_unit) : option jsstring :=
  Some (match cur with
        | Some w => w ++ [c]
        | None => [c]
        end).

(** The words of a command line, [None] when the line needs more of the
    shell grammar than this: inside single quotes every unit stands for
    itself up to the closing quote; outside, a backslash makes the next unit
    stand for itself, blanks separate words, and any other unit without a
    special meaning stands for itself.  [inq] says that a single quote is
    open, [cur] is the word read so far, if one has begun. *)
Fixpoint sh_words_from (inq : bool) (cur : option jsstring) (s : jsstring)
  : option (list jsstring) :=
  match s with
  | [] =>
      if inq then None
      else Some (match cur with
                 | Some w => [w]
                 | None => []
                 end)
  | c :: s' =>
      if inq then
        if c =? SQUOTE then sh_words_from false cur s'
        else sh_words_from true (sh_push cur c) s'
      else if c =? SQUOTE then
        sh_words_from true (Some (nullish cur [])) s'
      else if c =? BACKSLASH then
        match s' with
        | [] => None
        | d :: s'' =>
            if d =? LF then None else sh_words_from false (sh_push cur d) s''
        end
      else if sh_blank c then
        match cur with
        | Some w => option_map (cons w) (sh_words_from false None s')
        | None => sh_words_from false None s'
        end
      else if sh_special c then None
      else sh_words_from false (sh_push cur c) s'
  end.

Definition sh_words (line : jsstring) : option (list jsstring) :=
  sh_words_from false None line.

(* ===================================================================== *)
(** ** scripts/jxa-comparison.ts: the two runners *)

Module Comparison.

(** The options object of the two calls: no [stdio] here. *)
Record ExecOptions : Type := {
  encoding : jsstring;
  timeout : Z
}.

(** A computation that calls [execSync] and reads [Date.now()]. *)
Inductive Script (A : Type) : Type :=
| Done (c : completion A)
| Exec (command : jsstring) (opts : ExecOptions)
       (k : completion jsstring -> Script A)
| Now (k : Z -> Script A).
Arguments Done {A} c.
Arguments Exec {A} command opts k.
Arguments Now {A} k.

Definition ret {A : Type} (a : A) : Script A := Done (Normal a).

Fixpoint bind {A B : Type} (p : Script A) (g : A -> Script B) : Script B :=
  match p with
  | Done (Normal a) => g a
  | Done (Throw v) => Done (Throw v)
  | Exec c o k => Exec c o (fun r => bind (k r) g)
  | Now k => Now (fun t => bind (k t) g)
  end.

Fixpoint try_catch {A : Type} (body : Script A)
         (handler : js_value -> Script A) : Script A :=
  match body with
  | Done (Normal a) => Done (Normal a)
  | Done (Throw v) => handler v
  | Exec c o k => Exec c o (fun r => try_catch (k r) handler)
  | Now k => Now (fun t => try_catch (k t) handler)
  end.

Definition execSync (command : jsstring) (opts : ExecOptions)
  : Script jsstring :=
  Exec command opts (fun r => Done r).

Definition Date_now : Script Z := Now (fun t => Done (Normal t)).

Notation "x <-- p ;; q" := (bind p (fun x => q))
  (at level 61, p at next level, right associativity).

(** The entry of a property list for a name.  A list stands for an object
    and holds each name once. *)
Fixpoint own_property (props : list (jsstring * jsstring)) (name : jsstring)
  : option jsstring :=
  match props with
  | [] => None
  | (k, v) :: rest =>
      if jsstring_eqb k name then Some v else own_property rest name
  end.

(** The TypeError of V8 for a property read on [null] or [undefined]. *)
Definition TypeError_reading_message (what : jsstring) : js_value :=
  JSError {| message := js "Cannot read properties of " ++ what
                          ++ js " (reading 'message')";
             killed := None;
             signal := None |}.

(** [(e as Error).message]: the cast does nothing at run time, so this is
    a property read on whatever was thrown.  [None] is [undefined]. *)
Definition get_message (e : js_value) : Script (option jsstring) :=
  match e with
  | JSError err => ret (Some (message err))
  | JSObject props => ret (own_property props (js "message"))
  | JSUndefined => Done (Throw (TypeError_reading_message (js "undefined")))
  | JSNull => Done (Throw (TypeError_reading_message (js "null")))
  | JSBoolean _ | JSNumber _ | JSString _ => ret None
  end.

Record Result : Type := {
  success : bool;
  output : jsstring;
  time : Z;
  error : option jsstring
}.

Definition runAppleScript (script : jsstring) : Script Result :=
  let escaped := replace_global SQUOTE (js "'\''") (trim script) in
  start <-- Date_now ;;
  try_catch
    (output <-- execSync (js "osascript -e '" ++ escaped ++ js "'")
                  {| encoding := js "utf8"; timeout := 30000 |} ;;
     finish <-- Date_now ;;
     ret {| success := true;
            output := trim output;
            time := finish - start;
            error := None |})
    (fun e =>
       finish <-- Date_now ;;
       msg <-- get_message e ;;
       ret {| success := false;
              output := js "";
              time := finish - start;
              error := msg |}).

Definition runJXA (script : jsstring) : Script Result :=
  let escaped := replace_global SQUOTE (js "'\''") (trim script) in
  start <-- Date_now ;;
  try_catch
    (output <-- execSync
                  (js "osascript -l JavaScript -e '" ++ escaped ++ js "'")
                  {| encoding := js "utf8"; timeout := 30000 |} ;;
     finish <-- Date_now ;;
     ret {| success := true;
            output := trim output;
            time := finish - start;
            error := None |})
    (fun e =>
       finish <-- Date_now ;;
       msg <-- get_message e ;;
       ret {| success := false;
              output := js "";
              time := finish - start;
              error := msg |}).

(** One recorded call. *)
Record call : Type := {
  call_command : jsstring;
  call_options : ExecOptions
}.

Definition facility := jsstring -> ExecOptions -> completion jsstring.

(** The outcome of a run. *)
Record outcome (A : Type) : Type := {
  completed : completion A;
  calls : list call;
  clock_reads : nat
}.
Arguments completed {A} o.
Arguments calls {A} o.
Arguments clock_reads {A} o.

(** [run f clock n p]: [p] against the facility [f]; [clock i] is what the
    reading number [i] of [Date.now()] gives, and [n] readings were made
    before. *)
Fixpoint run {A : Type} (f : facility) (clock : nat -> Z) (n : nat)
         (p : Script A) : outcome A :=
  match p with
  | Done c => {| completed := c; calls := []; clock_reads := n |}
  | Exec c o k =>
      let r := run f clock n (k (f c o)) in
      {| completed := completed r;
         calls := {| call_command := c; call_options := o |} :: calls r;
         clock_reads := clock_reads r |}
  | Now k => run f clock (S n) (k (clock n))
  end.

End Comparison.

(** The command line of [runAppleScript] for a script: as for the
    executor, without the dialect selector. *)
Definition applescript_command (script : jsstring) : jsstring :=
  js "osascript -e " ++ [SQUOTE] ++ shell_quote (trim script) ++ [SQUOTE].

(** The options of every call made by the two runners. *)
Definition runner_options : Comparison.ExecOptions :=
  {| Comparison.encoding := js "utf8"; Comparison.timeout := 30000 |}.

(* ===================================================================== *)
(** ** The escaper *)

Lemma replace_global_app (c : code_unit) (r a b : jsstring) :
  replace_global c r (a ++ b) = replace_global c r a ++ replace_global c r b.
Proof.
  induction a as [|x a IH]; simpl; [reflexivity|].
  destruct (x =? c); rewrite IH; [now rewrite app_assoc | reflexivity].
Qed.

(** The head of the input goes through the five passes on its own: what a
    pass writes is never matched by a later pass. *)
Lemma five_passes_cons (c : code_unit) (s : jsstring) :
  replace_global TAB (js "\t")
    (replace_global CR (js "\r")
       (replace_global LF (js "\n")
          (replace_global DQUOTE [BACKSLASH; DQUOTE]
             (replace_global BACKSLASH (js "\\") (c :: s)))))
  = escape_code_unit c
      ++ replace_global TAB (js "\t")
           (replace_global CR (js "\r")
              (replace_global LF (js "\n")
                 (replace_global DQUOTE [BACKSLASH; DQUOTE]
                    (replace_global BACKSLASH (js "\\") s)))).
Proof.
  unfold escape_code_unit, BACKSLASH, DQUOTE, LF, CR, TAB.
  cbn [replace_global].
  destruct (Z.eqb_spec c 92) as [->|Hb]; [reflexivity|].
  cbn [replace_global].
  destruct (Z.eqb_spec c 34) as [->|Hq]; [reflexivity|].
  cbn [replace_global].
  destruct (Z.eqb_spec c 10) as [->|Hn]; [reflexivity|].
  cbn [replace_global].
  destruct (Z.eqb_spec c 13) as [->|Hr]; [reflexivity|].
  cbn [replace_global].
  destruct (Z.eqb_spec c 9) as [->|Ht]; reflexivity.
Qed.

Lemma escapeForJXA_flat_map (s : jsstring) :
  escapeForJXA s = flat_map escape_code_unit s.
Proof.
  destruct s as [|c s]; [reflexivity|].
  unfold escapeForJXA. cbn [truthy negb].
  revert c. induction s as [|d s IH]; intro c.
  - rewrite five_passes_cons. reflexivity.
  - rewrite five_passes_cons. rewrite IH. reflexivity.
Qed.

Lemma escape_code_unit_plain (c : code_unit) :
  needs_escape c = false -> escape_code_unit c = [c].
Proof.
  unfold needs_escape, escape_code_unit.
  destruct (c =? BACKSLASH), (c =? DQUOTE), (c =? LF), (c =? CR), (c =? TAB);
    cbn; congruence.
Qed.

Lemma eval_escape_code_unit (c : code_unit) (rest : jsstring) :
  eval_double_quoted (escape_code_unit c ++ rest)
  = option_map (cons c) (eval_double_quoted rest).
Proof.
  unfold escape_code_unit, BACKSLASH, DQUOTE, LF, CR, TAB.
  destruct (Z.eqb_spec c 92) as [->|Hb]; [reflexivity|].
  destruct (Z.eqb_spec c 34) as [->|Hq]; [reflexivity|].
  destruct (Z.eqb_spec c 10) as [->|Hn]; [reflexivity|].
  destruct (Z.eqb_spec c 13) as [->|Hr]; [reflexivity|].
  destruct (Z.eqb_spec c 9) as [->|Ht]; [reflexivity|].
  cbn [app eval_double_quoted]. unfold forbidden_raw, BACKSLASH, DQUOTE, LF, CR.
  apply Z.eqb_neq in Hb, Hq, Hn, Hr. now rewrite Hb, Hq, Hn, Hr.
Qed.

(** C1. Reading the escaped text back as the body of a double-quoted
    JavaScript literal gives the original string, for every string. *)
Theorem escapeForJXA_round_trip (s : jsstring) :
  eval_double_quoted (escapeForJXA s) = Some s.
Proof.
  rewrite escapeForJXA_flat_map.
  induction s as [|c s IH]; [reflexivity|].
  cbn [flat_map]. rewrite eval_escape_code_unit, IH. reflexivity.
Qed.

(** C2. The five substitutions run in the order backslash, double quote,
    newline, carriage return, tab, and the result is the same as rewriting
    every code unit of the input exactly once: a backslash written by a
    substitution is never escaped again.  The two examples of the claim
    hold: path\to\file and say "hello". *)
Theorem escapeForJXA_order_no_double_processing :
  (forall s,
     escapeForJXA s
     = replace_global TAB (js "\t")
         (replace_global CR (js "\r")
            (replace_global LF (js "\n")
               (replace_global DQUOTE [BACKSLASH; DQUOTE]
                  (replace_global BACKSLASH (js "\\") s)))))
  /\ (forall s, escapeForJXA s = flat_map escape_code_unit s)
  /\ escapeForJXA (js "path\to\file") = js "path\\to\\file"
  /\ escapeForJXA (js "say " ++ [DQUOTE] ++ js "hello" ++ [DQUOTE])
     = js "say \" ++ [DQUOTE] ++ js "hello\" ++ [DQUOTE].
Proof.
  split; [|split; [|split]].
  - intros [|c s]; reflexivity.
  - exact escapeForJXA_flat_map.
  - reflexivity.
  - reflexivity.
Qed.

Lemma needs_escape_above_ascii (c : code_unit) :
  128 <= c -> needs_escape c = false.
Proof.
  intro H. unfold needs_escape, BACKSLASH, DQUOTE, LF, CR, TAB.
  repeat (apply orb_false_intro); apply Z.eqb_neq; lia.
Qed.

Lemma flat_map_escape_plain (s : jsstring) :
  Forall (fun c => needs_escape c = false) s ->
  flat_map escape_code_unit s = s.
Proof.
  induction 1 as [|c s Hc _ IH]; [reflexivity|].
  cbn [flat_map]. rewrite (escape_code_unit_plain c Hc), IH. reflexivity.
Qed.

(** C8. The escaper is the identity on every string that has none of the
    five code units it rewrites.  So the empty string stays empty, a single
    quote and every non-ASCII unit are not among the five, and such a unit
    goes through unchanged wherever it stands. *)
Theorem escapeForJXA_identity_without_specials :
  (forall s, Forall (fun c => needs_escape c = false) s -> escapeForJXA s = s)
  /\ escapeForJXA (js "") = js ""
  /\ needs_escape SQUOTE = false
  /\ (forall c, 128 <= c -> needs_escape c = false)
  /\ (forall a c b,
        needs_escape c = false ->
        escapeForJXA (a ++ c :: b) = escapeForJXA a ++ c :: escapeForJXA b)
  /\ escapeForJXA (js "it's working") = js "it's working"
  /\ escapeForJXA [0x65E5; 0x672C; 0x8A9E; 0x20; 0xD83C; 0xDF89]
     = [0x65E5; 0x672C; 0x8A9E; 0x20; 0xD83C; 0xDF89].
Proof.
  repeat split; try reflexivity.
  - intros s Hs. rewrite escapeForJXA_flat_map. now apply flat_map_escape_plain.
  - exact needs_escape_above_ascii.
  - intros a c b Hc. rewrite !escapeForJXA_flat_map, flat_map_app.
    cbn [flat_map]. now rewrite (escape_code_unit_plain c Hc).
Qed.

Lemma escapeForJXA_identity_without_specials_witness :
  Forall (fun c => needs_escape c = false) (js "it's Rob's note")
  /\ escapeForJXA (js "it's Rob's note") = js "it's Rob's note".
Proof.
  assert (H : Forall (fun c => needs_escape c = false) (js "it's Rob's note"))
    by (repeat constructor).
  split; [exact H|].
  exact (proj1 escapeForJXA_identity_without_specials _ H).
Defined.

(* ===================================================================== *)
(** ** The script composer *)

(** C9. The composed script is, in this order: the binding of the Notes
    application handle, the statement enabling the standard additions, and
    the fragment itself, unchanged and in one piece; it spans several
    lines. *)
Theorem buildNotesJXA_binding_additions_fragment (code : jsstring) :
  buildNotesJXA code
  = ([LF] ++ js "    " ++ notes_binding ++ [LF]
       ++ js "    " ++ standard_additions_statement ++ [LF]
       ++ js "    ")
      ++ code ++ ([LF] ++ js "  ")
  /\ (exists a b c d,
        buildNotesJXA code
        = a ++ notes_binding ++ b ++ standard_additions_statement ++ c
            ++ code ++ d)
  /\ (3 <= count_occ Z.eq_dec (buildNotesJXA code) LF)%nat.
Proof.
  assert (E : buildNotesJXA code
              = ([LF] ++ js "    " ++ notes_binding ++ [LF]
                   ++ js "    " ++ standard_additions_statement ++ [LF]
                   ++ js "    ")
                  ++ code ++ ([LF] ++ js "  ")) by reflexivity.
  split; [exact E|split].
  - exists ([LF] ++ js "    "), ([LF] ++ js "    "), ([LF] ++ js "    "),
      ([LF] ++ js "  ").
    reflexivity.
  - rewrite E, !count_occ_app.
    change (count_occ Z.eq_dec [LF] LF) with 1%nat. lia.
Qed.

(* ===================================================================== *)
(** ** The executor *)

Lemma trimStart_nil_iff (s : jsstring) :
  trimStart s = [] <-> blank s = true.
Proof.
  unfold blank. induction s as [|c s IH]; cbn; [tauto|].
  destruct (is_white_space c); cbn; [exact IH|].
  split; discriminate.
Qed.

Lemma trimStart_head (s : jsstring) :
  match trimStart s with
  | [] => True
  | c :: _ => is_white_space c = false
  end.
Proof.
  induction s as [|c s IH]; cbn; [exact I|].
  destruct (is_white_space c) eqn:E; [exact IH | exact E].
Qed.

Lemma blank_rev (s : jsstring) : blank (rev s) = blank s.
Proof.
  unfold blank. induction s as [|c s IH]; [reflexivity|].
  cbn [rev]. rewrite forallb_app, IH. cbn. rewrite andb_true_r.
  apply andb_comm.
Qed.

Lemma trim_nil_iff (s : jsstring) : trim s = [] <-> blank s = true.
Proof.
  unfold trim, trimEnd. split.
  - intro H. apply (f_equal (@rev _)) in H. rewrite rev_involutive in H.
    cbn in H. apply trimStart_nil_iff in H. rewrite blank_rev in H.
    pose proof (trimStart_head s) as Hh.
    destruct (trimStart s) as [|c t] eqn:E.
    + now apply trimStart_nil_iff.
    + unfold blank in H. cbn in H. rewrite Hh in H. discriminate.
  - intro H. apply trimStart_nil_iff in H. rewrite H. reflexivity.
Qed.

(** The guard of the executor, [!script || !script.trim()], holds exactly
    for the blank scripts. *)
Lemma empty_guard (script : jsstring) :
  negb (truthy script) || negb (truthy (trim script)) = blank script.
Proof.
  destruct (blank script) eqn:B.
  - apply trim_nil_iff in B. rewrite B. apply orb_true_r.
  - destruct script as [|c s]; [discriminate|].
    destruct (trim (c :: s)) as [|d t] eqn:T; [|reflexivity].
    apply trim_nil_iff in T. congruence.
Qed.

Lemma replace_global_flat_map (c : code_unit) (r s : jsstring) :
  replace_global c r s = flat_map (fun x => if x =? c then r else [x]) s.
Proof.
  induction s as [|x s IH]; [reflexivity|].
  cbn [replace_global flat_map]. rewrite IH. now destruct (x =? c).
Qed.

Lemma command_is_osascript_command (script : jsstring) :
  js "osascript -l JavaScript -e '"
    ++ replace_global SQUOTE (js "'\''") (trim script) ++ js "'"
  = osascript_command script.
Proof.
  unfold osascript_command, shell_quote.
  rewrite replace_global_flat_map. reflexivity.
Qed.

Lemma timeout_in_force (options : option JXAOptions) :
  nullish (timeoutMs (nullish options {| timeoutMs := None |}))
    DEFAULT_TIMEOUT_MS
  = configured_timeout options.
Proof. destruct options as [[[t|]]|]; reflexivity. Qed.

Lemma Math_round_ms (ms : Z) :
  Math_round (inject_Z ms / inject_Z 1000)%Q = whole_seconds ms.
Proof.
  unfold Math_round, whole_seconds, Qfloor, Qplus, Qdiv, Qmult, Qinv, inject_Z.
  cbn [Qnum Qden].
  replace (ms * 1 * 2 + 1 * Z.pos (1 * 1000))
    with ((ms + 500) * 2) by lia.
  change (Z.pos (1 * 1000 * 2)) with (1000 * 2).
  apply Z.div_mul_cancel_r; lia.
Qed.

(** A blank script is rejected without a call. *)
Lemma run_executeJXA_blank (f : facility) (script : jsstring)
      (options : option JXAOptions) :
  blank script = true ->
  run f (executeJXA script options)
  = (Normal (failure (js "Cannot execute empty JXA script")), []).
Proof.
  intro B. unfold executeJXA. cbv zeta. rewrite empty_guard, B. reflexivity.
Qed.

(** Any other script makes exactly one call, and the outcome of that call
    decides the result. *)
Lemma run_executeJXA_not_blank (f : facility) (script : jsstring)
      (options : option JXAOptions) :
  blank script = false ->
  run f (executeJXA script options)
  = (match f (osascript_command script) (exec_options options) with
     | Normal stdout =>
         Normal {| success := true; output := trim stdout; error := None |}
     | Throw err => Normal (failure (reported_error options err))
     end,
     [{| call_command := osascript_command script;
         call_options := exec_options options |}]).
Proof.
  intro B. unfold executeJXA. cbv zeta.
  rewrite empty_guard, B, command_is_osascript_command, timeout_in_force.
  cbn [negb try_catch bind execSync run].
  fold (exec_options options).
  destruct (f (osascript_command script) (exec_options options)) as [out|err];
    cbn [try_catch bind ret run]; [reflexivity|].
  unfold reported_error, failure, timeout_message.
  rewrite Math_round_ms. reflexivity.
Qed.

Lemma jsstring_eqb_eq (a b : jsstring) : jsstring_eqb a b = true <-> a = b.
Proof.
  unfold jsstring_eqb. destruct (list_eq_dec Z.eq_dec a b); split;
    congruence.
Qed.

Lemma isTimeoutError_iff (e : ErrorObject) :
  isTimeoutError (JSError e) = true
  <-> killed e = Some true \/ signal e = Some (js "SIGTERM").
Proof.
  unfold isTimeoutError. rewrite orb_true_iff. split.
  - intros [H|H].
    + left. destruct (killed e) as [[|]|]; congruence.
    + right. destruct (signal e) as [sg|]; [|discriminate].
      apply jsstring_eqb_eq in H. now subst.
  - intros [H|H]; rewrite H; [now left|right].
    now apply jsstring_eqb_eq.
Qed.

Lemma trimStart_decompose (s : jsstring) :
  exists a, s = a ++ trimStart s /\ blank a = true.
Proof.
  induction s as [|c s [a [E B]]]; [now exists []|].
  cbn [trimStart]. destruct (is_white_space c) eqn:W.
  - exists (c :: a). split; [cbn; congruence|].
    unfold blank in *. cbn. now rewrite W.
  - now exists [].
Qed.

(** [trim] removes a blank front and a blank back and nothing else; what is
    left neither starts nor ends with white space. *)
Lemma trim_decompose (s : jsstring) :
  exists a b,
    s = a ++ trim s ++ b /\ blank a = true /\ blank b = true
    /\ match trim s with
       | [] => True
       | c :: _ => is_white_space c = false
       end
    /\ match rev (trim s) with
       | [] => True
       | c :: _ => is_white_space c = false
       end.
Proof.
  destruct (trimStart_decompose s) as [a [Ea Ba]].
  destruct (trimStart_decompose (rev (trimStart s))) as [b [Eb Bb]].
  apply (f_equal (@rev _)) in Eb. rewrite rev_involutive, rev_app_distr in Eb.
  fold (trimEnd (trimStart s)) in Eb. fold (trim s) in Eb.
  exists a, (rev b). repeat split.
  - now rewrite <- Eb.
  - exact Ba.
  - now rewrite blank_rev.
  - pose proof (trimStart_head s) as Hh. rewrite Eb in Hh.
    destruct (trim s); [exact I | exact Hh].
  - unfold trim, trimEnd. rewrite rev_involutive. apply trimStart_head.
Qed.

(** C3. A script that is empty or all white space is answered with the
    failure whose error says that the script is empty, and the process
    facility is not called. *)
Theorem executeJXA_blank_script (f : facility) (script : jsstring)
        (options : option JXAOptions) :
  blank script = true ->
  run f (executeJXA script options)
  = (Normal {| success := false;
               output := js "";
               error := Some (js "Cannot execute empty JXA script") |},
     [])
  /\ contains (js "Cannot execute empty JXA script") (js "empty").
Proof.
  intro B. split; [now apply run_executeJXA_blank|].
  exists (js "Cannot execute "), (js " JXA script"). reflexivity.
Qed.

Lemma executeJXA_blank_script_witness :
  blank (js "   ") = true
  /\ snd (run (fun _ _ => Normal (js "never used"))
            (executeJXA (js "   ") None)) = []
  /\ snd (run (fun _ _ => Normal (js "never used")) (executeJXA (js "") None))
     = [].
Proof.
  split; [reflexivity|]. split.
  - exact (f_equal snd
             (proj1 (executeJXA_blank_script
                       (fun _ _ => Normal (js "never used")) (js "   ") None
                       eq_refl))).
  - exact (f_equal snd
             (proj1 (executeJXA_blank_script
                       (fun _ _ => Normal (js "never used")) (js "") None
                       eq_refl))).
Defined.

(** C6. For a script that is not blank and a facility that returns the
    text [stdout], the result is a success whose output is [stdout] without
    its leading and trailing white space; the one command handed to the
    facility selects the JavaScript dialect and carries the trimmed script
    as a single-quoted argument in which every single quote is replaced by
    the four characters quote, backslash, quote, quote. *)
Theorem executeJXA_success (f : facility) (script : jsstring)
        (options : option JXAOptions) (stdout : jsstring) :
  blank script = false ->
  f (osascript_command script) (exec_options options) = Normal stdout ->
  run f (executeJXA script options)
  = (Normal {| success := true; output := trim stdout; error := None |},
     [{| call_command :=
           js "osascript -l JavaScript -e " ++ [SQUOTE]
             ++ shell_quote (trim script) ++ [SQUOTE];
         call_options := exec_options options |}])
  /\ contains (osascript_command script) (js "-l JavaScript")
  /\ (exists a b,
        stdout = a ++ trim stdout ++ b /\ blank a = true /\ blank b = true
        /\ match trim stdout with
           | [] => True
           | c :: _ => is_white_space c = false
           end
        /\ match rev (trim stdout) with
           | [] => True
           | c :: _ => is_white_space c = false
           end).
Proof.
  intros B Hf. split; [|split].
  - rewrite (run_executeJXA_not_blank f script options B), Hf. reflexivity.
  - exists (js "osascript "),
      (js " -e " ++ [SQUOTE] ++ shell_quote (trim script) ++ [SQUOTE]).
    reflexivity.
  - apply trim_decompose.
Qed.

Lemma executeJXA_success_witness :
  blank (js "JSON.stringify({test: true})") = false
  /\ fst (run (fun _ _ => Normal (js "test output" ++ [LF]))
            (executeJXA (js "JSON.stringify({test: true})") None))
     = Normal {| success := true; output := js "test output"; error := None |}.
Proof.
  split; [reflexivity|].
  exact (f_equal fst
           (proj1 (executeJXA_success
                     (fun _ _ => Normal (js "test output" ++ [LF]))
                     (js "JSON.stringify({test: true})") None
                     (js "test output" ++ [LF]) eq_refl eq_refl))).
Defined.

(** C4. For a script that is not blank, when the facility throws an Error
    whose [killed] flag is true or whose [signal] is SIGTERM, the result is
    the failure whose error reads: Operation timed out after N seconds,
    where N is the timeout in force (the option, or 30000) in whole
    seconds.  The timeout in force is a safe integer. *)
Theorem executeJXA_timeout (f : facility) (script : jsstring)
        (options : option JXAOptions) (e : ErrorObject) :
  blank script = false ->
  Number_isSafeInteger (configured_timeout options) = true ->
  killed e = Some true \/ signal e = Some (js "SIGTERM") ->
  f (osascript_command script) (exec_options options) = Throw (JSError e) ->
  fst (run f (executeJXA script options))
  = Normal {| success := false;
              output := js "";
              error := Some (js "Operation timed out after "
                               ++ Number_toString
                                    (whole_seconds (configured_timeout options))
                               ++ js " seconds") |}.
Proof.
  intros B _ K Hf.
  rewrite (run_executeJXA_not_blank f script options B), Hf.
  unfold reported_error. apply isTimeoutError_iff in K. rewrite K.
  reflexivity.
Qed.

Lemma executeJXA_timeout_witness :
  fst (run (fun _ _ =>
              Throw (JSError {| message := js "Command failed";
                                killed := Some true;
                                signal := None |}))
         (executeJXA (js "longRunningScript()")
            (Some {| timeoutMs := Some 5000 |})))
  = Normal {| success := false;
              output := js "";
              error := Some (js "Operation timed out after 5 seconds") |}
  /\ fst (run (fun _ _ =>
                 Throw (JSError {| message := js "Command failed";
                                   killed := None;
                                   signal := Some (js "SIGTERM") |}))
            (executeJXA (js "longRunningScript()") None))
     = Normal {| success := false;
                 output := js "";
                 error := Some (js "Operation timed out after 30 seconds") |}.
Proof.
  split.
  - exact (executeJXA_timeout
             (fun _ _ =>
                Throw (JSError {| message := js "Command failed";
                                  killed := Some true;
                                  signal := None |}))
             (js "longRunningScript()") (Some {| timeoutMs := Some 5000 |})
             {| message := js "Command failed";
                killed := Some true;
                signal := None |}
             eq_refl eq_refl (or_introl eq_refl) eq_refl).
  - exact (executeJXA_timeout
             (fun _ _ =>
                Throw (JSError {| message := js "Command failed";
                                  killed := None;
                                  signal := Some (js "SIGTERM") |}))
             (js "longRunningScript()") None
             {| message := js "Command failed";
                killed := None;
                signal := Some (js "SIGTERM") |}
             eq_refl eq_refl (or_intror eq_refl) eq_refl).
Defined.

(** C10. Every result of the executor is well shaped: a failure has the
    empty output and an error; a success has no error; no result has both a
    non-empty output and an error. *)
Theorem executeJXA_result_well_shaped (f : facility) (script : jsstring)
        (options : option JXAOptions) :
  exists r,
    fst (run f (executeJXA script options)) = Normal r /\ well_shaped r.
Proof.
  assert (Hf : forall m, well_shaped (failure m)).
  { intro m. unfold well_shaped, failure; cbn. repeat split.
    - eexists; reflexivity.
    - discriminate.
    - intros [H _]. now apply H. }
  destruct (blank script) eqn:B.
  - rewrite (run_executeJXA_blank f script options B).
    eexists; split; [reflexivity | apply Hf].
  - rewrite (run_executeJXA_not_blank f script options B).
    destruct (f (osascript_command script) (exec_options options)).
    + eexists; split; [reflexivity|].
      unfold well_shaped; cbn. repeat split; try discriminate.
      intros [_ H]. now apply H.
    + eexists; split; [reflexivity | apply Hf].
Qed.

(* ===================================================================== *)
(** ** The pattern [/Error: (.+)/] *)

Lemma strip_prefix_Some (p s r : jsstring) :
  strip_prefix p s = Some r <-> s = p ++ r.
Proof.
  revert s. induction p as [|a p IH]; intro s; cbn.
  - split; congruence.
  - destruct s as [|b s]; [split; discriminate|].
    destruct (Z.eqb_spec a b) as [->|N].
    + rewrite IH. split; congruence.
    + split; [discriminate | congruence].
Qed.

(** [dot_star] cuts its argument just before the first line terminator. *)
Lemma dot_star_decompose (s : jsstring) :
  exists rest,
    s = dot_star s ++ rest
    /\ Forall (fun c => is_line_terminator c = false) (dot_star s)
    /\ match rest with
       | [] => True
       | c :: _ => is_line_terminator c = true
       end.
Proof.
  induction s as [|c s [rest [E [F R]]]]; [now exists []|].
  cbn [dot_star]. destruct (is_line_terminator c) eqn:L.
  - exists (c :: s). now repeat split.
  - exists rest. repeat split; [cbn; congruence | now constructor | exact R].
Qed.

Lemma dot_star_app (d rest : jsstring) :
  Forall (fun c => is_line_terminator c = false) d ->
  match rest with
  | [] => True
  | c :: _ => is_line_terminator c = true
  end ->
  dot_star (d ++ rest) = d.
Proof.
  intros F R. induction F as [|c d Hc _ IH]; cbn [app dot_star].
  - destruct rest as [|c rest]; [reflexivity|].
    cbn [dot_star]. now rewrite R.
  - now rewrite Hc, IH.
Qed.

Lemma app_same_length (a b x y : jsstring) :
  a ++ x = b ++ y -> List.length a = List.length b -> a = b /\ x = y.
Proof.
  revert b. induction a as [|c a IH]; intros [|d b] E L;
    try discriminate; [now split|].
  cbn in E, L. injection E as -> E. injection L as L.
  destruct (IH b E L) as [-> ->]. now split.
Qed.

Lemma match_here_Some (s cap : jsstring) :
  match_here_Error_details s = Some cap ->
  exists rest,
    s = js "Error: " ++ cap ++ rest
    /\ cap <> []
    /\ Forall (fun c => is_line_terminator c = false) cap
    /\ match rest with
       | [] => True
       | c :: _ => is_line_terminator c = true
       end.
Proof.
  unfold match_here_Error_details.
  destruct (strip_prefix (js "Error: ") s) as [r|] eqn:P; [|discriminate].
  apply strip_prefix_Some in P.
  destruct (dot_star_decompose r) as [rest [E [F R]]].
  destruct (dot_star r) as [|c d] eqn:D; [discriminate|].
  intro H. injection H as <-.
  exists rest. subst s. rewrite E at 1. now repeat split.
Qed.

Lemma match_here_None (s : jsstring) :
  match_here_Error_details s = None ->
  forall c tail, ~ match_start s [] c tail.
Proof.
  unfold match_here_Error_details, match_start. intros H c tail [E L].
  cbn [app] in E. change (s = js "Error: " ++ c :: tail) in E.
  apply strip_prefix_Some in E. rewrite E in H.
  cbn [dot_star] in H. rewrite L in H. discriminate.
Qed.

Lemma match_start_cons (x : code_unit) (s pre : jsstring) (c : code_unit)
      (tail : jsstring) :
  match_start (x :: s) pre c tail ->
  (pre = [] /\ match_start (x :: s) [] c tail)
  \/ (exists pre', pre = x :: pre' /\ match_start s pre' c tail).
Proof.
  intros [E L]. destruct pre as [|y pre].
  - left. now split.
  - right. cbn in E. injection E as -> E. exists pre. now repeat split.
Qed.

Lemma match_Error_details_Some (msg details : jsstring) :
  match_Error_details msg = Some details -> captured msg details.
Proof.
  induction msg as [|x s IH].
  - cbn. discriminate.
  - cbn [match_Error_details].
    destruct (match_here_Error_details (x :: s)) as [cap|] eqn:H.
    + intro E. injection E as <-.
      destruct (match_here_Some _ _ H) as [rest [E [N [F R]]]].
      exists [], rest. repeat split; try assumption. intros; cbn; lia.
    + intro E. destruct (IH E) as [pre [rest [E' [N [F [R M]]]]]].
      exists (x :: pre), rest. repeat split; try assumption.
      * cbn. now rewrite E'.
      * intros pre' c tail S.
        destruct (match_start_cons _ _ _ _ _ S) as [[_ S0]|[p [-> S']]].
        -- now apply (match_here_None _ H) in S0.
        -- cbn. apply M in S'. lia.
Qed.

Lemma match_Error_details_None (msg : jsstring) :
  match_Error_details msg = None ->
  forall pre c tail, ~ match_start msg pre c tail.
Proof.
  induction msg as [|x s IH].
  - intros _ pre c tail [E _]. destruct pre; discriminate.
  - cbn [match_Error_details].
    destruct (match_here_Error_details (x :: s)) as [cap|] eqn:H;
      [discriminate|].
    intros E pre c tail S.
    destruct (match_start_cons _ _ _ _ _ S) as [[_ S0]|[p [_ S']]].
    + now apply (match_here_None _ H) in S0.
    + now apply (IH E) in S'.
Qed.

Lemma captured_match_start (msg details : jsstring) :
  captured msg details ->
  exists pre c tail, match_start msg pre c tail.
Proof.
  intros [pre [rest [E [N [F _]]]]].
  destruct details as [|c d]; [congruence|].
  exists pre, c, (d ++ rest). split; [exact E|]. now inversion F.
Qed.

Lemma captured_unique (msg d1 d2 : jsstring) :
  captured msg d1 -> captured msg d2 -> d1 = d2.
Proof.
  intros [p1 [r1 [E1 [N1 [F1 [R1 M1]]]]]] [p2 [r2 [E2 [N2 [F2 [R2 M2]]]]]].
  assert (L : List.length p1 = List.length p2).
  { apply Nat.le_antisymm.
    - destruct d2 as [|c d]; [congruence|].
      apply (M1 p2 c (d ++ r2)). split; [exact E2 | now inversion F2].
    - destruct d1 as [|c d]; [congruence|].
      apply (M2 p1 c (d ++ r1)). split; [exact E1 | now inversion F1]. }
  rewrite E1 in E2. destruct (app_same_length _ _ _ _ E2 L) as [_ E].
  apply app_inv_head in E.
  rewrite <- (dot_star_app d1 r1 F1 R1), <- (dot_star_app d2 r2 F2 R2).
  now rewrite E.
Qed.

Lemma captured_whole_message (details : jsstring) :
  details <> [] ->
  Forall (fun c => is_line_terminator c = false) details ->
  captured (js "Error: " ++ details) details.
Proof.
  intros N F. exists [], []. rewrite app_nil_r. repeat split; try assumption.
  intros; cbn; lia.
Qed.

(** C7. Whatever the script, the options and the behaviour of the facility
    (a returned text or any thrown value), the executor completes normally
    with a result record; it makes at most one call; a failure always
    carries an error text.  Each failure mode ends in a failure result with
    its own error: a blank script in the failure that says the script is
    empty, without a call; a thrown timeout Error in the failure that says
    the operation timed out after some number of seconds; any other thrown
    Error in the failure whose error is the captured text or the message; a
    thrown value that is no Error in the failure with the generic message.
    Only a call that returns gives a success. *)
Theorem executeJXA_never_throws (f : facility) (script : jsstring)
        (options : option JXAOptions) :
  exists r calls,
    run f (executeJXA script options) = (Normal r, calls)
    /\ (List.length calls <= 1)%nat
    /\ (success r = false -> exists e, error r = Some e)
    /\ (blank script = true ->
        calls = []
        /\ r = {| success := false;
                  output := js "";
                  error := Some (js "Cannot execute empty JXA script") |})
    /\ (blank script = false ->
        forall v,
          f (osascript_command script) (exec_options options) = Throw v ->
          success r = false
          /\ output r = js ""
          /\ exists e,
               error r = Some e
               /\ (isTimeoutError v = true ->
                   exists secs,
                     e = js "Operation timed out after " ++ secs
                           ++ js " seconds")
               /\ (isTimeoutError v = false ->
                   match v with
                   | JSError err =>
                       captured (message err) e
                       \/ ((forall pre c tail,
                              ~ match_start (message err) pre c tail)
                           /\ e = message err)
                   | _ => e = js "JXA execution failed with unknown error"
                   end))
    /\ (success r = true ->
        blank script = false
        /\ exists stdout,
             f (osascript_command script) (exec_options options)
             = Normal stdout
             /\ output r = trim stdout).
Proof.
  destruct (blank script) eqn:B.
  - rewrite (run_executeJXA_blank f script options B).
    eexists; eexists; split; [reflexivity|].
    split; [cbn; lia|]. split; [intros _; eexists; reflexivity|].
    split; [intros _; split; reflexivity|].
    split; [discriminate|]. cbn. discriminate.
  - rewrite (run_executeJXA_not_blank f script options B).
    destruct (f (osascript_command script) (exec_options options))
      as [out|err] eqn:Hf;
      eexists; eexists; (split; [reflexivity|]); (split; [cbn; lia|]).
    + split; [cbn; discriminate|]. split; [discriminate|].
      split; [intros _ v Hv; discriminate Hv|].
      intros _. split; [reflexivity|]. exists out. split; reflexivity.
    + split; [intros _; eexists; reflexivity|]. split; [discriminate|].
      split; [|cbn; discriminate].
      intros _ v Hv. injection Hv as <-.
      split; [reflexivity|]. split; [reflexivity|].
      exists (reported_error options err). split; [reflexivity|].
      unfold reported_error.
      destruct (isTimeoutError err) eqn:T.
      * split; [|discriminate]. intros _.
        exists (Number_toString (whole_seconds (configured_timeout options))).
        reflexivity.
      * split; [discriminate|]. intros _.
        destruct err as [| | | | | |e]; try reflexivity.
        destruct (match_Error_details (message e)) as [d|] eqn:M.
        -- left. now apply match_Error_details_Some.
        -- right. split; [now apply match_Error_details_None | reflexivity].
Qed.

Lemma executeJXA_never_throws_witness :
  (exists r,
     fst (run (fun _ _ => Throw JSNull) (executeJXA (js "Notes.notes()") None))
     = Normal r
     /\ success r = false)
  /\ (exists r,
        fst (run (fun _ _ => Normal (js "unused")) (executeJXA (js "  ") None))
        = Normal r
        /\ success r = false).
Proof.
  split.
  - destruct (executeJXA_never_throws
                (fun _ _ => Throw JSNull) (js "Notes.notes()") None)
      as [r [calls [R [_ [_ [_ [T _]]]]]]].
    exists r. split; [now rewrite R|].
    exact (proj1 (T eq_refl JSNull eq_refl)).
  - destruct (executeJXA_never_throws
                (fun _ _ => Normal (js "unused")) (js "  ") None)
      as [r [calls [R [_ [_ [E _]]]]]].
    exists r. split; [now rewrite R|].
    destruct (E eq_refl) as [_ ->]. reflexivity.
Defined.

(** C5, as the code has it. For a script that is not blank, when the
    facility throws an Error that is not a timeout, the result is a failure
    whose error is what the unanchored pattern Error: (.+) captures in the
    message: the run of characters without a line terminator that follows
    the first occurrence of the text Error: followed by at least one such
    character, up to the next line terminator or the end of the message.
    When the message has no such occurrence the error is the message
    itself.  A message that is exactly Error: followed by a non-empty
    one-line text gives that text.  A thrown value that is not an Error
    gives the generic message. *)
Theorem executeJXA_error_details (f : facility) (script : jsstring)
        (options : option JXAOptions) (err : js_value) :
  blank script = false ->
  isTimeoutError err = false ->
  f (osascript_command script) (exec_options options) = Throw err ->
  exists msg,
    fst (run f (executeJXA script options))
    = Normal {| success := false; output := js ""; error := Some msg |}
    /\ match err with
       | JSError e =>
           (forall details, captured (message e) details -> msg = details)
           /\ ((forall pre c tail, ~ match_start (message e) pre c tail) ->
               msg = message e)
           /\ (captured (message e) msg
               \/ ((forall pre c tail, ~ match_start (message e) pre c tail)
                   /\ msg = message e))
           /\ (forall details,
                 message e = js "Error: " ++ details ->
                 details <> [] ->
                 Forall (fun c => is_line_terminator c = false) details ->
                 msg = details)
       | _ => msg = js "JXA execution failed with unknown error"
       end.
Proof.
  intros B T Hf.
  rewrite (run_executeJXA_not_blank f script options B), Hf.
  exists (reported_error options err). split; [reflexivity|].
  unfold reported_error. rewrite T.
  destruct err as [| | | | | |e]; try reflexivity.
  destruct (match_Error_details (message e)) as [d|] eqn:M.
  - pose proof (match_Error_details_Some _ _ M) as C.
    assert (U : forall details, captured (message e) details -> d = details)
      by (intros details C'; exact (captured_unique _ _ _ C C')).
    repeat split.
    + exact U.
    + intro No. destruct (captured_match_start _ _ C) as [pre [c [tail S]]].
      now apply No in S.
    + now left.
    + intros details E N F. apply U. rewrite E.
      now apply captured_whole_message.
  - pose proof (match_Error_details_None _ M) as No.
    assert (U : forall details, captured (message e) details ->
                                message e = details).
    { intros details C.
      destruct (captured_match_start _ _ C) as [pre [c [tail S]]].
      now apply No in S. }
    repeat split.
    + exact U.
    + now right.
    + intros details E N F. apply U. rewrite E.
      now apply captured_whole_message.
Qed.

Lemma executeJXA_error_details_witness :
  exists msg,
    fst (run (fun _ _ =>
                Throw (JSError {| message := js "Error: Cannot find note";
                                  killed := None;
                                  signal := None |}))
           (executeJXA (js "Notes.notes()") None))
    = Normal {| success := false; output := js ""; error := Some msg |}
    /\ msg = js "Cannot find note".
Proof.
  destruct (executeJXA_error_details
              (fun _ _ =>
                 Throw (JSError {| message := js "Error: Cannot find note";
                                   killed := None;
                                   signal := None |}))
              (js "Notes.notes()") None
              (JSError {| message := js "Error: Cannot find note";
                          killed := None;
                          signal := None |})
              eq_refl eq_refl eq_refl) as [msg [R [_ [_ [_ D]]]]].
  exists msg. split; [exact R|].
  apply D; [reflexivity | discriminate | repeat constructor].
Defined.

(** C5, as the claim words it, fails twice.  The message of
    [two_line_error] is the text Error: followed by two lines, and the error
    reported is the first line only, not the whole of what follows the text
    Error:.  The message of [command_failed_error] does not start with the
    text Error:, and the error reported is not that message but the part of
    its second line after the text Error:. *)
Lemma executeJXA_error_details_counterexample :
  (isTimeoutError (JSError two_line_error) = false
   /\ message two_line_error
      = js "Error: " ++ (js "first line" ++ [LF] ++ js "second line")
   /\ fst (run (fun _ _ => Throw (JSError two_line_error))
             (executeJXA (js "Notes.notes()") None))
      = Normal {| success := false;
                  output := js "";
                  error := Some (js "first line") |}
   /\ fst (run (fun _ _ => Throw (JSError two_line_error))
             (executeJXA (js "Notes.notes()") None))
      <> Normal {| success := false;
                   output := js "";
                   error := Some (js "first line" ++ [LF]
                                    ++ js "second line") |})
  /\ (isTimeoutError (JSError command_failed_error) = false
      /\ (forall details,
            message command_failed_error <> js "Error: " ++ details)
      /\ fst (run (fun _ _ => Throw (JSError command_failed_error))
                (executeJXA (js "Notes.notes()") None))
         = Normal {| success := false;
                     output := js "";
                     error := Some (js "Cannot find note") |}
      /\ fst (run (fun _ _ => Throw (JSError command_failed_error))
                (executeJXA (js "Notes.notes()") None))
         <> Normal {| success := false;
                      output := js "";
                      error := Some (message command_failed_error) |}).
Proof.
  split.
  - repeat split; try reflexivity. vm_compute. discriminate.
  - repeat split; try reflexivity.
    + intros details E. vm_compute in E. discriminate.
    + vm_compute. discriminate.
Qed.

(* ===================================================================== *)
(** ** The cases of jxa.test.ts, evaluated on the embedding *)

Example test_escapes_newlines :
  escapeForJXA (js "line1" ++ [LF] ++ js "line2") = js "line1\nline2".
Proof. reflexivity. Qed.

Example test_escapes_tabs :
  escapeForJXA (js "col1" ++ [TAB] ++ js "col2") = js "col1\tcol2".
Proof. reflexivity. Qed.

Example test_handles_complex_content :
  escapeForJXA (js "John said " ++ [DQUOTE] ++ js "Hello\World" ++ [DQUOTE]
                  ++ [LF] ++ js "New line")
  = js "John said \" ++ [DQUOTE] ++ js "Hello\\World\" ++ [DQUOTE]
      ++ js "\nNew line".
Proof. reflexivity. Qed.

Example test_handles_execution_errors :
  fst (run (fun _ _ =>
              Throw (JSError {| message := js "Error: Cannot find note";
                                killed := None;
                                signal := None |}))
         (executeJXA (js "Notes.notes()") None))
  = Normal (failure (js "Cannot find note")).
Proof. reflexivity. Qed.

Example test_wraps_code_with_Notes_context :
  contains (buildNotesJXA (js "Notes.accounts().map(a => a.name())"))
    (js "Application(" ++ [DQUOTE] ++ js "Notes" ++ [DQUOTE] ++ js ")")
  /\ contains (buildNotesJXA (js "Notes.accounts().map(a => a.name())"))
       (js "Notes.accounts().map(a => a.name())").
Proof.
  split.
  - exists ([LF] ++ js "    const Notes = "),
      (js ";" ++ [LF] ++ js "    Notes.includeStandardAdditions = true;"
         ++ [LF] ++ js "    Notes.accounts().map(a => a.name())" ++ [LF]
         ++ js "  ").
    reflexivity.
  - exists ([LF] ++ js "    " ++ notes_binding ++ [LF] ++ js "    "
              ++ standard_additions_statement ++ [LF] ++ js "    "),
      ([LF] ++ js "  ").
    reflexivity.
Qed.

(** Were the backslash pass to come after the newline pass, the backslash
    written for a newline would be escaped a second time. *)
Example backslash_pass_must_come_first :
  replace_global BACKSLASH (js "\\") (replace_global LF (js "\n") [LF])
  = js "\\n"
  /\ escapeForJXA [LF] = js "\n".
Proof. split; reflexivity. Qed.

(* ===================================================================== *)
(** ** More on the escaper *)

Lemma eval_escaped_units (s : jsstring) :
  eval_double_quoted (flat_map escape_code_unit s) = Some s.
Proof.
  induction s as [|c s IH]; [reflexivity|].
  cbn [flat_map]. rewrite eval_escape_code_unit, IH. reflexivity.
Qed.

Lemma escape_code_unit_length (c : code_unit) :
  List.length (escape_code_unit c)
  = if needs_escape c then 2%nat else 1%nat.
Proof.
  unfold escape_code_unit, needs_escape.
  destruct (c =? BACKSLASH), (c =? DQUOTE), (c =? LF), (c =? CR), (c =? TAB);
    reflexivity.
Qed.

Lemma escape_code_unit_one_line (c : code_unit) :
  Forall (fun x => x <> LF /\ x <> CR /\ x <> TAB) (escape_code_unit c).
Proof.
  unfold escape_code_unit, BACKSLASH, DQUOTE, LF, CR, TAB.
  destruct (Z.eqb_spec c 92); [repeat constructor; discriminate|].
  destruct (Z.eqb_spec c 34); [repeat constructor; discriminate|].
  destruct (Z.eqb_spec c 10); [repeat constructor; discriminate|].
  destruct (Z.eqb_spec c 13); [repeat constructor; discriminate|].
  destruct (Z.eqb_spec c 9); [repeat constructor; discriminate|].
  repeat constructor; assumption.
Qed.

(** X1. Escaping goes through concatenation: a text may be escaped piece by
    piece. *)
Theorem escapeForJXA_app (a b : jsstring) :
  escapeForJXA (a ++ b) = escapeForJXA a ++ escapeForJXA b.
Proof. rewrite !escapeForJXA_flat_map. apply flat_map_app. Qed.

(** X2. Two different texts never have the same escaped form. *)
Theorem escapeForJXA_injective (a b : jsstring) :
  a <> b -> escapeForJXA a <> escapeForJXA b.
Proof.
  intros N E. apply N.
  apply (f_equal eval_double_quoted) in E.
  rewrite !escapeForJXA_flat_map, !eval_escaped_units in E.
  now injection E.
Qed.

Lemma escapeForJXA_injective_witness :
  js "\n" <> [LF] /\ escapeForJXA (js "\n") <> escapeForJXA [LF].
Proof.
  assert (N : js "\n" <> [LF]) by discriminate.
  split; [exact N|].
  exact (escapeForJXA_injective (js "\n") [LF] N).
Defined.

(** X3. The escaped form has one more code unit for every backslash,
    double quote, newline, carriage return and tab of the text: it is never
    shorter than the text and never more than twice as long. *)
Theorem escapeForJXA_length (s : jsstring) :
  List.length (escapeForJXA s)
  = (List.length s + List.length (filter needs_escape s))%nat
  /\ (List.length s <= List.length (escapeForJXA s) <= 2 * List.length s)%nat.
Proof.
  assert (E : List.length (escapeForJXA s)
              = (List.length s + List.length (filter needs_escape s))%nat).
  { rewrite escapeForJXA_flat_map.
    induction s as [|c s IH]; [reflexivity|].
    cbn [flat_map filter]. rewrite length_app, escape_code_unit_length, IH.
    destruct (needs_escape c); cbn [List.length]; lia. }
  split; [exact E|].
  pose proof (filter_length_le needs_escape s). lia.
Qed.

(** X4. The escaped form has no newline, no carriage return and no tab in
    it, whatever the text. *)
Theorem escapeForJXA_one_line (s : jsstring) :
  Forall (fun x => x <> LF /\ x <> CR /\ x <> TAB) (escapeForJXA s).
Proof.
  rewrite escapeForJXA_flat_map.
  induction s as [|c s IH]; [constructor|].
  cbn [flat_map]. apply Forall_app. split;
    [apply escape_code_unit_one_line | exact IH].
Qed.

(* ===================================================================== *)
(** ** More on the executor *)

Lemma blank_app (a b : jsstring) : blank (a ++ b) = blank a && blank b.
Proof. apply forallb_app. Qed.

Lemma trimStart_blank_app (a s : jsstring) :
  blank a = true -> trimStart (a ++ s) = trimStart s.
Proof.
  unfold blank. induction a as [|c a IH]; [reflexivity|].
  cbn [forallb app trimStart]. intro H. apply andb_prop in H.
  destruct H as [W B]. rewrite W. now apply IH.
Qed.

Lemma trimStart_app_not_blank (s b : jsstring) :
  blank s = false -> trimStart (s ++ b) = trimStart s ++ b.
Proof.
  unfold blank. induction s as [|c s IH]; [discriminate|].
  cbn [forallb app trimStart]. destruct (is_white_space c); [exact IH|].
  reflexivity.
Qed.

Lemma trimEnd_app_blank (s b : jsstring) :
  blank b = true -> trimEnd (s ++ b) = trimEnd s.
Proof.
  intro B. unfold trimEnd. rewrite rev_app_distr, trimStart_blank_app;
    [reflexivity | now rewrite blank_rev].
Qed.

Lemma trimEnd_app_not_blank (x y : jsstring) :
  blank y = false -> trimEnd (x ++ y) = x ++ trimEnd y.
Proof.
  intro B. unfold trimEnd.
  rewrite rev_app_distr, trimStart_app_not_blank by now rewrite blank_rev.
  now rewrite rev_app_distr, rev_involutive.
Qed.

Lemma trimEnd_nil_of_blank (y : jsstring) : blank y = true -> trimEnd y = [].
Proof.
  intro B. unfold trimEnd. rewrite <- blank_rev in B.
  apply trimStart_nil_iff in B. now rewrite B.
Qed.

(** After a text that ends with something other than white space, trimming
    the end only touches what follows. *)
Lemma trimEnd_after_solid (x : jsstring) (c : code_unit) (y : jsstring) :
  is_white_space c = false ->
  trimEnd ((x ++ [c]) ++ y) = (x ++ [c]) ++ trimEnd y.
Proof.
  intro W. destruct (blank y) eqn:B.
  - rewrite (trimEnd_app_blank _ _ B), (trimEnd_nil_of_blank _ B), app_nil_r.
    unfold trimEnd. rewrite rev_app_distr. cbn [rev app trimStart].
    rewrite W. cbn [rev]. now rewrite rev_involutive.
  - now apply trimEnd_app_not_blank.
Qed.

Lemma trim_surrounded (a s b : jsstring) :
  blank a = true -> blank b = true -> trim (a ++ s ++ b) = trim s.
Proof.
  intros A B. unfold trim. rewrite (trimStart_blank_app _ _ A).
  destruct (blank s) eqn:S.
  - assert (SB : blank (s ++ b) = true) by now rewrite blank_app, S, B.
    apply trimStart_nil_iff in SB, S. now rewrite SB, S.
  - rewrite (trimStart_app_not_blank _ _ S). now apply trimEnd_app_blank.
Qed.

(** X5. White space around the script makes no difference: the executor
    does with the padded script exactly what it does with the script. *)
Theorem executeJXA_ignores_surrounding_white_space
        (a script b : jsstring) (options : option JXAOptions) :
  blank a = true ->
  blank b = true ->
  executeJXA (a ++ script ++ b) options = executeJXA script options.
Proof.
  intros A B. unfold executeJXA. cbv zeta.
  rewrite !empty_guard, (trim_surrounded _ _ _ A B), !blank_app, A, B.
  cbn [andb]. now rewrite andb_true_r.
Qed.

Lemma executeJXA_ignores_surrounding_white_space_witness :
  executeJXA ([LF] ++ js "  Notes.notes().length;" ++ [LF; TAB]) None
  = executeJXA (js "Notes.notes().length;") None.
Proof.
  exact (executeJXA_ignores_surrounding_white_space
           ([LF] ++ js "  ") (js "Notes.notes().length;") [LF; TAB] None
           eq_refl eq_refl).
Defined.

(** X6. For a script that is not blank the facility is called exactly once,
    whether the call returns or throws: nothing is retried.  The call asks
    for utf8 text, pipes the three standard streams and carries the timeout
    in force, the option when given (zero included) and 30000 otherwise. *)
Theorem executeJXA_calls_once (f : facility) (script : jsstring)
        (options : option JXAOptions) :
  blank script = false ->
  snd (run f (executeJXA script options))
  = [{| call_command := osascript_command script;
        call_options :=
          {| encoding := js "utf8";
             timeout := match options with
                        | Some {| timeoutMs := Some t |} => t
                        | _ => 30000
                        end;
             stdio := [js "pipe"; js "pipe"; js "pipe"] |} |}].
Proof.
  intro B. rewrite (run_executeJXA_not_blank f script options B).
  reflexivity.
Qed.

Lemma executeJXA_calls_once_witness :
  List.length
    (snd (run (fun _ _ => Throw (JSString (js "boom")))
            (executeJXA (js "Notes.notes()")
               (Some {| timeoutMs := Some 0 |}))))
  = 1%nat.
Proof.
  exact (f_equal (@List.length call)
           (executeJXA_calls_once
              (fun _ _ => Throw (JSString (js "boom")))
              (js "Notes.notes()") (Some {| timeoutMs := Some 0 |})
              eq_refl)).
Defined.

Lemma whole_seconds_nearest (k t : Z) :
  1000 * k - 500 <= t < 1000 * k + 500 -> whole_seconds t = k.
Proof.
  intro H. unfold whole_seconds. symmetry.
  apply (Z.div_unique_pos (t + 500) 1000 k (t + 500 - 1000 * k)); lia.
Qed.

(** X7. The seconds in the timeout message are the timeout rounded to the
    nearest second, a half going up: every timeout that is a safe integer
    from 1000k - 500 up to 1000k + 499 milliseconds is reported as k
    seconds, so a timeout under half a second reads as 0 seconds. *)
Theorem executeJXA_timeout_seconds_nearest (f : facility) (script : jsstring)
        (t k : Z) (e : ErrorObject) :
  blank script = false ->
  Number_isSafeInteger t = true ->
  killed e = Some true \/ signal e = Some (js "SIGTERM") ->
  f (osascript_command script)
    (exec_options (Some {| timeoutMs := Some t |})) = Throw (JSError e) ->
  1000 * k - 500 <= t < 1000 * k + 500 ->
  fst (run f (executeJXA script (Some {| timeoutMs := Some t |})))
  = Normal {| success := false;
              output := js "";
              error := Some (js "Operation timed out after "
                               ++ Number_toString k ++ js " seconds") |}.
Proof.
  intros B _ K Hf R.
  rewrite (run_executeJXA_not_blank f script _ B), Hf.
  unfold reported_error. apply isTimeoutError_iff in K. rewrite K.
  unfold timeout_message. cbn [configured_timeout].
  now rewrite (whole_seconds_nearest k t R).
Qed.

Lemma executeJXA_timeout_seconds_nearest_witness :
  fst (run (fun _ _ =>
              Throw (JSError {| message := js "spawnSync /bin/sh ETIMEDOUT";
                                killed := None;
                                signal := Some (js "SIGTERM") |}))
         (executeJXA (js "Notes.notes()") (Some {| timeoutMs := Some 499 |})))
  = Normal {| success := false;
              output := js "";
              error := Some (js "Operation timed out after 0 seconds") |}.
Proof.
  refine (executeJXA_timeout_seconds_nearest
            (fun _ _ =>
               Throw (JSError {| message := js "spawnSync /bin/sh ETIMEDOUT";
                                 killed := None;
                                 signal := Some (js "SIGTERM") |}))
            (js "Notes.notes()") 499 0
            {| message := js "spawnSync /bin/sh ETIMEDOUT";
               killed := None;
               signal := Some (js "SIGTERM") |}
            eq_refl eq_refl (or_intror eq_refl) eq_refl _).
  split; [discriminate | reflexivity].
Defined.

(* ===================================================================== *)
(** ** The command line, as the shell reads it *)

Lemma sh_close_quote (cur : option jsstring) (s : jsstring) :
  sh_words_from true cur (SQUOTE :: s) = sh_words_from false cur s.
Proof. reflexivity. Qed.

Lemma sh_open_quote (cur : option jsstring) (s : jsstring) :
  sh_words_from false cur (SQUOTE :: s)
  = sh_words_from true (Some (nullish cur [])) s.
Proof. reflexivity. Qed.

Lemma sh_escaped_quote (cur : option jsstring) (s : jsstring) :
  sh_words_from false cur (BACKSLASH :: SQUOTE :: s)
  = sh_words_from false (sh_push cur SQUOTE) s.
Proof. reflexivity. Qed.

Lemma sh_quoted_unit (cur : option jsstring) (c : code_unit) (s : jsstring) :
  c <> SQUOTE ->
  sh_words_from true cur (c :: s) = sh_words_from true (sh_push cur c) s.
Proof.
  intro N. cbn [sh_words_from]. apply Z.eqb_neq in N. now rewrite N.
Qed.

(** Inside an open quote, the protected text and the closing quote add the
    text itself to the current word and leave the quote closed. *)
Lemma sh_words_quoted (w s rest : jsstring) :
  sh_words_from true (Some w)
    (replace_global SQUOTE (js "'\''") s ++ SQUOTE :: rest)
  = sh_words_from false (Some (w ++ s)) rest.
Proof.
  revert w. induction s as [|c s IH]; intro w.
  - cbn [replace_global app]. rewrite sh_close_quote. now rewrite app_nil_r.
  - cbn [replace_global]. destruct (Z.eqb_spec c SQUOTE) as [->|N].
    + change ((js "'\''" ++ replace_global SQUOTE (js "'\''") s)
                ++ SQUOTE :: rest)
        with (SQUOTE :: BACKSLASH :: SQUOTE :: SQUOTE
                :: (replace_global SQUOTE (js "'\''") s ++ SQUOTE :: rest)).
      rewrite sh_close_quote, sh_escaped_quote, sh_open_quote.
      cbn [sh_push nullish].
      etransitivity; [apply IH|].
      apply (f_equal (fun x => sh_words_from false (Some x) rest)).
      exact (eq_sym (app_assoc w [SQUOTE] s)).
    + cbn [app]. rewrite (sh_quoted_unit _ _ _ N).
      cbn [sh_push].
      etransitivity; [apply IH|].
      apply (f_equal (fun x => sh_words_from false (Some x) rest)).
      exact (eq_sym (app_assoc w [c] s)).
Qed.

Lemma sh_plain_unit (cur : option jsstring) (c : code_unit) (s : jsstring) :
  sh_plain c = true ->
  sh_words_from false cur (c :: s) = sh_words_from false (sh_push cur c) s.
Proof.
  unfold sh_plain. intro H.
  apply andb_prop in H. destruct H as [H S].
  apply andb_prop in H. destruct H as [H B].
  apply andb_prop in H. destruct H as [Q K].
  apply negb_true_iff in S, B, Q, K.
  cbn [sh_words_from]. now rewrite Q, K, B, S.
Qed.

Lemma sh_plain_units (w p rest : jsstring) :
  forallb sh_plain p = true ->
  sh_words_from false (Some w) (p ++ rest)
  = sh_words_from false (Some (w ++ p)) rest.
Proof.
  revert w. induction p as [|c p IH]; intros w H.
  - cbn [app]. now rewrite app_nil_r.
  - cbn [forallb] in H. apply andb_prop in H. destruct H as [C P].
    cbn [app]. rewrite (sh_plain_unit _ _ _ C). cbn [sh_push].
    etransitivity; [apply (IH _ P)|].
    apply (f_equal (fun x => sh_words_from false (Some x) rest)).
    exact (eq_sym (app_assoc w [c] p)).
Qed.

(** A word of plain units, begun outside any word. *)
Lemma sh_plain_word (c : code_unit) (p rest : jsstring) :
  forallb sh_plain (c :: p) = true ->
  sh_words_from false None ((c :: p) ++ rest)
  = sh_words_from false (Some (c :: p)) rest.
Proof.
  intro H. cbn [forallb] in H. apply andb_prop in H. destruct H as [C P].
  cbn [app]. rewrite (sh_plain_unit _ _ _ C). cbn [sh_push].
  exact (sh_plain_units [c] p rest P).
Qed.

Lemma sh_space (w s : jsstring) :
  sh_words_from false (Some w) (32 :: s)
  = option_map (cons w) (sh_words_from false None s).
Proof. reflexivity. Qed.

(** A single-quoted word that follows a blank. *)
Lemma sh_words_quoted_word (t : jsstring) :
  sh_words_from false None
    (SQUOTE :: replace_global SQUOTE (js "'\''") t ++ [SQUOTE])
  = Some [t].
Proof.
  rewrite sh_open_quote. cbn [nullish].
  etransitivity; [apply (sh_words_quoted [] t [])|]. reflexivity.
Qed.

Lemma sh_words_osascript_JavaScript (t : jsstring) :
  sh_words (js "osascript -l JavaScript -e '"
              ++ replace_global SQUOTE (js "'\''") t ++ js "'")
  = Some [js "osascript"; js "-l"; js "JavaScript"; js "-e"; t].
Proof.
  unfold sh_words.
  change (js "osascript -l JavaScript -e '"
            ++ replace_global SQUOTE (js "'\''") t ++ js "'")
    with (js "osascript"
            ++ 32 :: js "-l"
            ++ 32 :: js "JavaScript"
            ++ 32 :: js "-e"
            ++ 32 :: SQUOTE :: replace_global SQUOTE (js "'\''") t
            ++ [SQUOTE]).
  rewrite (sh_plain_word 111 (js "sascript")) by reflexivity.
  rewrite sh_space.
  rewrite (sh_plain_word 45 (js "l")) by reflexivity.
  rewrite sh_space.
  rewrite (sh_plain_word 74 (js "avaScript")) by reflexivity.
  rewrite sh_space.
  rewrite (sh_plain_word 45 (js "e")) by reflexivity.
  rewrite sh_space, sh_words_quoted_word.
  reflexivity.
Qed.

Lemma sh_words_osascript (t : jsstring) :
  sh_words (js "osascript -e '"
              ++ replace_global SQUOTE (js "'\''") t ++ js "'")
  = Some [js "osascript"; js "-e"; t].
Proof.
  unfold sh_words.
  change (js "osascript -e '"
            ++ replace_global SQUOTE (js "'\''") t ++ js "'")
    with (js "osascript"
            ++ 32 :: js "-e"
            ++ 32 :: SQUOTE :: replace_global SQUOTE (js "'\''") t
            ++ [SQUOTE]).
  rewrite (sh_plain_word 111 (js "sascript")) by reflexivity.
  rewrite sh_space.
  rewrite (sh_plain_word 45 (js "e")) by reflexivity.
  rewrite sh_space, sh_words_quoted_word.
  reflexivity.
Qed.

(** X8. The command of the executor survives the shell: read by the rules
    of POSIX word splitting, the one command line the executor hands over is
    the five words osascript, -l, JavaScript, -e and the trimmed script,
    whatever quotes, blanks, dollars or newlines the script contains. *)
Theorem executeJXA_command_words (f : facility) (script : jsstring)
        (options : option JXAOptions) :
  blank script = false ->
  map (fun c => sh_words (call_command c))
      (snd (run f (executeJXA script options)))
  = [Some [js "osascript"; js "-l"; js "JavaScript"; js "-e"; trim script]].
Proof.
  intro B. rewrite (run_executeJXA_not_blank f script options B).
  cbn [snd map call_command].
  rewrite <- command_is_osascript_command, sh_words_osascript_JavaScript.
  reflexivity.
Qed.

Lemma executeJXA_command_words_witness :
  map (fun c => sh_words (call_command c))
      (snd (run (fun _ _ => Normal (js "ok"))
              (executeJXA (js "  it's; $(rm -rf ~) `x` ''") None)))
  = [Some [js "osascript"; js "-l"; js "JavaScript"; js "-e";
           js "it's; $(rm -rf ~) `x` ''"]].
Proof.
  exact (executeJXA_command_words (fun _ _ => Normal (js "ok"))
           (js "  it's; $(rm -rf ~) `x` ''") None eq_refl).
Defined.

(* ===================================================================== *)
(** ** The composer feeding the executor *)

Lemma trim_buildNotesJXA (code : jsstring) :
  trim (buildNotesJXA code)
  = notes_binding ++ [LF] ++ js "    " ++ standard_additions_statement
      ++ trimEnd ([LF] ++ js "    " ++ code).
Proof.
  pose (A := [LF] ++ js "    ").
  pose (H := js "const Notes = Application(" ++ [DQUOTE] ++ js "Notes"
               ++ [DQUOTE] ++ js ");" ++ [LF] ++ js "    "
               ++ js "Notes.includeStandardAdditions = true").
  pose (M := [LF] ++ js "    " ++ code).
  pose (T := [LF] ++ js "  ").
  transitivity (trimEnd (trimStart (A ++ ((H ++ [59]) ++ M) ++ T)));
    [reflexivity|].
  transitivity (trimEnd (trimStart (((H ++ [59]) ++ M) ++ T)));
    [exact (f_equal trimEnd
              (trimStart_blank_app A (((H ++ [59]) ++ M) ++ T) eq_refl))|].
  transitivity (trimEnd (((H ++ [59]) ++ M) ++ T)); [reflexivity|].
  transitivity (trimEnd ((H ++ [59]) ++ M));
    [exact (trimEnd_app_blank ((H ++ [59]) ++ M) T eq_refl)|].
  transitivity ((H ++ [59]) ++ trimEnd M);
    [exact (trimEnd_after_solid H 59 M eq_refl)|].
  reflexivity.
Qed.

(** X9. A script made by the composer is never blank, whatever the
    fragment, the empty one too: the executor never answers it with the
    empty-script failure path but calls the facility once.  What it sends is
    the composed script without its leading line break and indentation and
    without the white space at its end; it starts with the binding of the
    Notes handle. *)
Theorem executeJXA_of_buildNotesJXA (f : facility) (code : jsstring)
        (options : option JXAOptions) :
  blank (buildNotesJXA code) = false
  /\ trim (buildNotesJXA code)
     = notes_binding ++ [LF] ++ js "    " ++ standard_additions_statement
         ++ trimEnd ([LF] ++ js "    " ++ code)
  /\ map call_command (snd (run f (executeJXA (buildNotesJXA code) options)))
     = [js "osascript -l JavaScript -e " ++ [SQUOTE]
          ++ shell_quote
               (notes_binding ++ [LF] ++ js "    "
                  ++ standard_additions_statement
                  ++ trimEnd ([LF] ++ js "    " ++ code))
          ++ [SQUOTE]].
Proof.
  assert (B : blank (buildNotesJXA code) = false) by reflexivity.
  split; [exact B|]. split; [apply trim_buildNotesJXA|].
  rewrite (run_executeJXA_not_blank f _ options B).
  cbn [snd map call_command]. unfold osascript_command.
  now rewrite trim_buildNotesJXA.
Qed.

(* ===================================================================== *)
(** ** The two runners of scripts/jxa-comparison.ts *)

Lemma applescript_command_eq (script : jsstring) :
  js "osascript -e '"
    ++ replace_global SQUOTE (js "'\''") (trim script) ++ js "'"
  = applescript_command script.
Proof.
  unfold applescript_command, shell_quote.
  rewrite replace_global_flat_map. reflexivity.
Qed.

(** What a run of [runJXA] comes to, by the outcome of its one call. *)
Lemma run_runJXA (f : Comparison.facility) (clock : nat -> Z) (n : nat)
      (script : jsstring) :
  Comparison.run f clock n (Comparison.runJXA script)
  = match f (osascript_command script) runner_options with
    | Normal stdout =>
        {| Comparison.completed :=
             Normal {| Comparison.success := true;
                       Comparison.output := trim stdout;
                       Comparison.time := clock (S n) - clock n;
                       Comparison.error := None |};
           Comparison.calls :=
             [{| Comparison.call_command := osascript_command script;
                 Comparison.call_options := runner_options |}];
           Comparison.clock_reads := S (S n) |}
    | Throw e =>
        {| Comparison.completed :=
             Comparison.completed
               (Comparison.run f clock 0
                  (Comparison.bind (Comparison.get_message e)
                     (fun msg =>
                        Comparison.ret
                          {| Comparison.success := false;
                             Comparison.output := js "";
                             Comparison.time := clock (S n) - clock n;
                             Comparison.error := msg |})));
           Comparison.calls :=
             [{| Comparison.call_command := osascript_command script;
                 Comparison.call_options := runner_options |}];
           Comparison.clock_reads := S (S n) |}
    end.
Proof.
  unfold Comparison.runJXA. cbv zeta.
  rewrite command_is_osascript_command.
  cbn [Comparison.run Comparison.bind Comparison.try_catch
         Comparison.Date_now Comparison.execSync].
  fold runner_options.
  destruct (f (osascript_command script) runner_options) as [out|e];
    [reflexivity|].
  cbn [Comparison.run Comparison.bind Comparison.try_catch].
  destruct e; reflexivity.
Qed.

Lemma run_runAppleScript (f : Comparison.facility) (clock : nat -> Z)
      (n : nat) (script : jsstring) :
  Comparison.run f clock n (Comparison.runAppleScript script)
  = match f (applescript_command script) runner_options with
    | Normal stdout =>
        {| Comparison.completed :=
             Normal {| Comparison.success := true;
                       Comparison.output := trim stdout;
                       Comparison.time := clock (S n) - clock n;
                       Comparison.error := None |};
           Comparison.calls :=
             [{| Comparison.call_command := applescript_command script;
                 Comparison.call_options := runner_options |}];
           Comparison.clock_reads := S (S n) |}
    | Throw e =>
        {| Comparison.completed :=
             Comparison.completed
               (Comparison.run f clock 0
                  (Comparison.bind (Comparison.get_message e)
                     (fun msg =>
                        Comparison.ret
                          {| Comparison.success := false;
                             Comparison.output := js "";
                             Comparison.time := clock (S n) - clock n;
                             Comparison.error := msg |})));
           Comparison.calls :=
             [{| Comparison.call_command := applescript_command script;
                 Comparison.call_options := runner_options |}];
           Comparison.clock_reads := S (S n) |}
    end.
Proof.
  unfold Comparison.runAppleScript. cbv zeta.
  rewrite applescript_command_eq.
  cbn [Comparison.run Comparison.bind Comparison.try_catch
         Comparison.Date_now Comparison.execSync].
  fold runner_options.
  destruct (f (applescript_command script) runner_options) as [out|e];
    [reflexivity|].
  cbn [Comparison.run Comparison.bind Comparison.try_catch].
  destruct e; reflexivity.
Qed.

(** X10. Each runner calls the facility exactly once and reads the clock
    exactly twice, for every script and whatever the call does: the script
    is trimmed and quoted as in the executor, the timeout is always 30000,
    and [runAppleScript] leaves the dialect selector out. *)
Theorem runners_call_once (f : Comparison.facility) (clock : nat -> Z)
        (script : jsstring) :
  Comparison.calls (Comparison.run f clock 0 (Comparison.runJXA script))
  = [{| Comparison.call_command :=
          js "osascript -l JavaScript -e " ++ [SQUOTE]
            ++ shell_quote (trim script) ++ [SQUOTE];
        Comparison.call_options :=
          {| Comparison.encoding := js "utf8";
             Comparison.timeout := 30000 |} |}]
  /\ Comparison.calls
       (Comparison.run f clock 0 (Comparison.runAppleScript script))
     = [{| Comparison.call_command :=
             js "osascript -e " ++ [SQUOTE]
               ++ shell_quote (trim script) ++ [SQUOTE];
           Comparison.call_options :=
             {| Comparison.encoding := js "utf8";
                Comparison.timeout := 30000 |} |}]
  /\ Comparison.clock_reads
       (Comparison.run f clock 0 (Comparison.runJXA script)) = 2%nat
  /\ Comparison.clock_reads
       (Comparison.run f clock 0 (Comparison.runAppleScript script)) = 2%nat.
Proof.
  rewrite run_runJXA, run_runAppleScript.
  destruct (f (osascript_command script) runner_options),
    (f (applescript_command script) runner_options);
    repeat split; reflexivity.
Qed.

(** X11. The runners have no guard for the empty script: for a blank script
    [runJXA] still calls the facility, with an empty quoted argument, where
    the executor makes no call at all. *)
Theorem runJXA_has_no_empty_guard (f : Comparison.facility) (g : facility)
        (clock : nat -> Z) (script : jsstring)
        (options : option JXAOptions) :
  blank script = true ->
  map Comparison.call_command
      (Comparison.calls (Comparison.run f clock 0 (Comparison.runJXA script)))
  = [js "osascript -l JavaScript -e ''"]
  /\ map Comparison.call_command
         (Comparison.calls
            (Comparison.run f clock 0 (Comparison.runAppleScript script)))
     = [js "osascript -e ''"]
  /\ snd (run g (executeJXA script options)) = [].
Proof.
  intro B. rewrite run_runJXA, run_runAppleScript.
  rewrite (run_executeJXA_blank g script options B).
  unfold osascript_command, applescript_command.
  pose proof (proj2 (trim_nil_iff script) B) as T. rewrite T.
  destruct (f _ runner_options), (f _ runner_options);
    repeat split; reflexivity.
Qed.

Lemma runJXA_has_no_empty_guard_witness :
  map Comparison.call_command
      (Comparison.calls
         (Comparison.run (fun _ _ => Normal (js "")) (fun _ => 0) 0
            (Comparison.runJXA (js "  "))))
  = [js "osascript -l JavaScript -e ''"].
Proof.
  exact (proj1 (runJXA_has_no_empty_guard
                  (fun _ _ => Normal (js "")) (fun _ _ => Normal (js ""))
                  (fun _ => 0) (js "  ") None eq_refl)).
Defined.

(** X12. For a script that is not blank, [runJXA] hands the facility the
    very command line the executor would. *)
Theorem runJXA_same_command_as_executeJXA
        (f : Comparison.facility) (g : facility) (clock : nat -> Z)
        (script : jsstring) (options : option JXAOptions) :
  blank script = false ->
  map Comparison.call_command
      (Comparison.calls (Comparison.run f clock 0 (Comparison.runJXA script)))
  = map call_command (snd (run g (executeJXA script options))).
Proof.
  intro B. rewrite run_runJXA, (run_executeJXA_not_blank g script options B).
  destruct (f _ runner_options); reflexivity.
Qed.

Lemma runJXA_same_command_as_executeJXA_witness :
  map Comparison.call_command
      (Comparison.calls
         (Comparison.run (fun _ _ => Normal (js "3")) (fun _ => 0) 0
            (Comparison.runJXA (js "Notes.notes().length;"))))
  = map call_command
        (snd (run (fun _ _ => Throw JSNull)
                (executeJXA (js "Notes.notes().length;") None))).
Proof.
  exact (runJXA_same_command_as_executeJXA
           (fun _ _ => Normal (js "3")) (fun _ _ => Throw JSNull)
           (fun _ => 0) (js "Notes.notes().length;") None eq_refl).
Defined.

(** X13. When the call returns, a runner reports success, the returned text
    without the white space around it, no error, and as time the second
    reading of the clock minus the first. *)
Theorem runners_success (f : Comparison.facility) (clock : nat -> Z)
        (script stdout : jsstring) :
  (f (osascript_command script) runner_options = Normal stdout ->
   Comparison.completed (Comparison.run f clock 0 (Comparison.runJXA script))
   = Normal {| Comparison.success := true;
               Comparison.output := trim stdout;
               Comparison.time := clock 1%nat - clock 0%nat;
               Comparison.error := None |})
  /\ (f (applescript_command script) runner_options = Normal stdout ->
      Comparison.completed
        (Comparison.run f clock 0 (Comparison.runAppleScript script))
      = Normal {| Comparison.success := true;
                  Comparison.output := trim stdout;
                  Comparison.time := clock 1%nat - clock 0%nat;
                  Comparison.error := None |}).
Proof.
  split; intro H.
  - rewrite run_runJXA, H. reflexivity.
  - rewrite run_runAppleScript, H. reflexivity.
Qed.

Lemma runners_success_witness :
  Comparison.completed
    (Comparison.run (fun _ _ => Normal (js "42" ++ [LF]))
       (fun n => 1000 + 150 * Z.of_nat n) 0
       (Comparison.runJXA (js "Notes.notes().length;")))
  = Normal {| Comparison.success := true;
              Comparison.output := js "42";
              Comparison.time := 150;
              Comparison.error := None |}.
Proof.
  exact (proj1 (runners_success (fun _ _ => Normal (js "42" ++ [LF]))
                  (fun n => 1000 + 150 * Z.of_nat n)
                  (js "Notes.notes().length;") (js "42" ++ [LF]))
           eq_refl).
Defined.

(** X14. When the call throws an Error, a runner reports failure with the
    message of the Error as it is: nothing is extracted from it, and an
    Error that marks a timeout is not told apart. *)
Theorem runners_report_raw_message (f : Comparison.facility)
        (clock : nat -> Z) (script : jsstring) (e : ErrorObject) :
  (f (osascript_command script) runner_options = Throw (JSError e) ->
   Comparison.completed (Comparison.run f clock 0 (Comparison.runJXA script))
   = Normal {| Comparison.success := false;
               Comparison.output := js "";
               Comparison.time := clock 1%nat - clock 0%nat;
               Comparison.error := Some (message e) |})
  /\ (f (applescript_command script) runner_options = Throw (JSError e) ->
      Comparison.completed
        (Comparison.run f clock 0 (Comparison.runAppleScript script))
      = Normal {| Comparison.success := false;
                  Comparison.output := js "";
                  Comparison.time := clock 1%nat - clock 0%nat;
                  Comparison.error := Some (message e) |}).
Proof.
  split; intro H.
  - rewrite run_runJXA, H. reflexivity.
  - rewrite run_runAppleScript, H. reflexivity.
Qed.

Lemma runners_report_raw_message_witness :
  Comparison.completed
    (Comparison.run
       (fun _ _ => Throw (JSError {| message := js "Error: Cannot find note";
                                     killed := Some true;
                                     signal := Some (js "SIGTERM") |}))
       (fun n => Z.of_nat n) 0 (Comparison.runJXA (js "Notes.notes()")))
  = Normal {| Comparison.success := false;
              Comparison.output := js "";
              Comparison.time := 1;
              Comparison.error := Some (js "Error: Cannot find note") |}.
Proof.
  exact (proj1 (runners_report_raw_message
                  (fun _ _ =>
                     Throw (JSError {| message := js "Error: Cannot find note";
                                       killed := Some true;
                                       signal := Some (js "SIGTERM") |}))
                  (fun n => Z.of_nat n) (js "Notes.notes()")
                  {| message := js "Error: Cannot find note";
                     killed := Some true;
                     signal := Some (js "SIGTERM") |})
           eq_refl).
Defined.

(** X15. A runner is not safe against every thrown value: when the call
    throws [null] or [undefined], reading the message in the catch block
    throws in its turn and the runner ends with that exception instead of a
    result.  The executor answers the same throw with a failure. *)
Theorem runJXA_throws_on_null (f : Comparison.facility) (g : facility)
        (clock : nat -> Z) (script : jsstring) (v : js_value) :
  v = JSNull \/ v = JSUndefined ->
  f (osascript_command script) runner_options = Throw v ->
  g (osascript_command script) (exec_options None) = Throw v ->
  blank script = false ->
  (exists x,
     Comparison.completed
       (Comparison.run f clock 0 (Comparison.runJXA script)) = Throw x)
  /\ fst (run g (executeJXA script None))
     = Normal {| success := false;
                 output := js "";
                 error := Some (js "JXA execution failed with unknown error")
              |}.
Proof.
  intros V Hf Hg B. split.
  - rewrite run_runJXA, Hf. destruct V as [-> | ->]; eexists; reflexivity.
  - rewrite (run_executeJXA_not_blank g script None B), Hg.
    destruct V as [-> | ->]; reflexivity.
Qed.

Lemma runJXA_throws_on_null_witness :
  exists x,
    Comparison.completed
      (Comparison.run (fun _ _ => Throw JSNull) (fun _ => 0) 0
         (Comparison.runJXA (js "Notes.notes()"))) = Throw x.
Proof.
  exact (proj1 (runJXA_throws_on_null
                  (fun _ _ => Throw JSNull) (fun _ _ => Throw JSNull)
                  (fun _ => 0) (js "Notes.notes()") JSNull
                  (or_introl eq_refl) eq_refl eq_refl eq_refl)).
Defined.

(** X16. The command lines of the runners survive the shell too: read by
    the rules of POSIX word splitting they are osascript, the flags, and the
    trimmed script as one word, which is the empty word for a blank
    script. *)
Theorem runners_command_words (f : Comparison.facility) (clock : nat -> Z)
        (script : jsstring) :
  map (fun c => sh_words (Comparison.call_command c))
      (Comparison.calls (Comparison.run f clock 0 (Comparison.runJXA script)))
  = [Some [js "osascript"; js "-l"; js "JavaScript"; js "-e"; trim script]]
  /\ map (fun c => sh_words (Comparison.call_command c))
         (Comparison.calls
            (Comparison.run f clock 0 (Comparison.runAppleScript script)))
     = [Some [js "osascript"; js "-e"; trim script]].
Proof.
  rewrite run_runJXA, run_runAppleScript.
  assert (J : sh_words (osascript_command script)
              = Some [js "osascript"; js "-l"; js "JavaScript"; js "-e";
                      trim script])
    by (rewrite <- command_is_osascript_command;
        apply sh_words_osascript_JavaScript).
  assert (A : sh_words (applescript_command script)
              = Some [js "osascript"; js "-e"; trim script])
    by (rewrite <- applescript_command_eq; apply sh_words_osascript).
  destruct (f (osascript_command script) runner_options),
    (f (applescript_command script) runner_options);
    cbn [Comparison.calls map Comparison.call_command];
    rewrite J, A; split; reflexivity.
Qed.
